(** * Mutation-driven cache consistency of the library management client

    Shallow embedding of [hooks/useMutations.ts] (the React Query mutation
    hooks), of the components that drive them ([BorrowBook], [LogoutButton],
    [ProfileDropdown]) and of the invalidation utilities of
    [REACT_QUERY_SETUP_GUIDE.md], together with the read cache they act on.

    The hooks are asynchronous callbacks run by a single-threaded event loop;
    they are modelled by explicit state passing over a [World] made of the
    query cache and the chronological trace of the effects performed. *)

From stdpp Require Import base option list gmap strings pretty.

Local Open Scope string_scope.
Local Open Scope list_scope.
Local Open Scope Z_scope.

(** ** JavaScript values and strings *)

(** The double quote character of the template literals. *)
Definition dq : string := String (Ascii.ascii_of_nat 34) EmptyString.

(** [`"${s}"`] *)
Definition quoted (s : string) : string := dq +:+ s +:+ dq.

(** A string is falsy exactly when it is empty. *)
Definition truthy_string (s : string) : bool :=
  match s with
  | EmptyString => false
  | String _ _ => true
  end.

(** [s || d] on strings. *)
Definition or_string (s d : string) : string :=
  if truthy_string s then s else d.

(** [o || d] where [o : string | undefined]. *)
Definition or_else (o : option string) (d : string) : string :=
  match o with
  | Some s => or_string s d
  | None => d
  end.

(** [o1 || o2] where both sides are [string | undefined]. *)
Definition or_opt (o1 o2 : option string) : option string :=
  match o1 with
  | Some s => if truthy_string s then Some s else o2
  | None => o2
  end.

(** [s.startsWith(p)] *)
Fixpoint starts_with (p s : string) : bool :=
  match p, s with
  | EmptyString, _ => true
  | String a p', String b s' => if Ascii.eqb a b then starts_with p' s' else false
  | String _ _, EmptyString => false
  end.

(** [s.includes(sub)] *)
Fixpoint includes (sub s : string) : bool :=
  if starts_with sub s then true
  else match s with
       | EmptyString => false
       | String _ s' => includes sub s'
       end.

(** [s.slice(0, -1)] *)
Fixpoint slice_init (s : string) : string :=
  match s with
  | EmptyString => EmptyString
  | String _ EmptyString => EmptyString
  | String a s' => String a (slice_init s')
  end.

(** Values exchanged with the data service.  Numbers are restricted to the
    integers: the counts, day counts and amounts the hooks print. *)
#[warnings="-register-all"]
Inductive JSON : Type :=
| JUndefined
| JNull
| JBool (b : bool)
| JNum (z : Z)
| JStr (s : string)
| JArr (items : list JSON)
| JObj (fields : list (string * JSON)).

Fixpoint assoc (k : string) (fs : list (string * JSON)) : option JSON :=
  match fs with
  | [] => None
  | (k', v) :: fs' => if String.eqb k k' then Some v else assoc k fs'
  end.

(** [j?.k] for a key [k] other than [length]: the property of an object,
    [undefined] for anything else. *)
Definition prop (j : JSON) (k : string) : JSON :=
  match j with
  | JObj fs => default JUndefined (assoc k fs)
  | _ => JUndefined
  end.

Definition truthy (j : JSON) : bool :=
  match j with
  | JUndefined | JNull => false
  | JBool b => b
  | JNum z => negb (z =? 0)
  | JStr s => truthy_string s
  | JArr _ | JObj _ => true
  end.

Definition is_undefined (j : JSON) : bool :=
  match j with
  | JUndefined => true
  | _ => false
  end.

(** [a.join(",")] on already rendered items. *)
Fixpoint join_comma (l : list string) : string :=
  match l with
  | [] => EmptyString
  | [s] => s
  | s :: l' => s +:+ "," +:+ join_comma l'
  end.

(** [`${j}`]: the string conversion of a template literal. *)
Fixpoint template (j : JSON) : string :=
  match j with
  | JUndefined => "undefined"
  | JNull => "null"
  | JBool true => "true"
  | JBool false => "false"
  | JNum z => pretty z
  | JStr s => s
  | JArr items =>
      join_comma (map (fun i => match i with
                                | JUndefined | JNull => EmptyString
                                | _ => template i
                                end) items)
  | JObj _ => "[object Object]"
  end.

(** [n.toFixed(2)] on an integer-valued number. *)
Definition toFixed2 (z : Z) : string := pretty z +:+ ".00".

(** [a || b] *)
Definition jor (a b : JSON) : JSON := if truthy a then a else b.

(** [j?.length]: the length of an array or of a string (of ASCII
    characters), the property of an object, [undefined] for anything else. *)
Definition length_of (j : JSON) : JSON :=
  match j with
  | JArr items => JNum (Z.of_nat (length items))
  | JStr s => JNum (Z.of_nat (String.length s))
  | JObj fs => default JUndefined (assoc "length" fs)
  | _ => JUndefined
  end.

(** ** Exceptions

    Reading a property of [null] or [undefined], and calling a method a value
    does not have, throw a [TypeError].  The wording of its message is the
    engine's; it is V8's here. *)
Inductive Result (A : Type) : Type :=
| Ok (a : A)
| Raise (e : string).
Arguments Ok {A} a.
Arguments Raise {A} e.

Definition cannot_read (j : JSON) (k : string) : string :=
  "Cannot read properties of " +:+ template j +:+ " (reading '" +:+ k +:+ "')".

(** [j.k] for a key [k] other than [length]. *)
Definition get (j : JSON) (k : string) : Result JSON :=
  match j with
  | JUndefined | JNull => Raise (cannot_read j k)
  | _ => Ok (prop j k)
  end.

(** [j.length] *)
Definition get_length (j : JSON) : Result JSON :=
  match j with
  | JUndefined | JNull => Raise (cannot_read j "length")
  | _ => Ok (length_of j)
  end.

(** [j.toFixed(2)], where [expr] is the source text of [j]. *)
Definition call_toFixed2 (expr : string) (j : JSON) : Result string :=
  match j with
  | JNum z => Ok (toFixed2 z)
  | JUndefined | JNull => Raise (cannot_read j "toFixed")
  | _ => Raise (expr +:+ ".toFixed is not a function")
  end.

(** ** The query cache

    A fingerprint is a React Query key: an entity-type tag followed by the
    parameters of the query. *)
Abbreviation QueryKey := (list string).

Record CacheEntry : Type := mkEntry {
  value : JSON;
  staleness : bool;
  lastFetchedAt : Z
}.

Abbreviation Cache := (gmap QueryKey CacheEntry).

Definition mark (e : CacheEntry) : CacheEntry :=
  {| value := value e; staleness := true; lastFetchedAt := lastFetchedAt e |}.

(** [matches filter key]: partial matching of a key against a filter key. *)
Definition matches (filter key : QueryKey) : bool :=
  bool_decide (filter `prefix_of` key).

(** Modelled from the spec: the read cache is the query client of the data
    fetching library, whose code is not part of the sources.  [markStale]
    follows section 4.1: every fingerprint whose leading part equals the given
    prefix is flagged stale, its value and timestamp are kept. *)
Definition markStale (filter : QueryKey) (c : Cache) : Cache :=
  map_imap (fun k e => Some (if matches filter k then mark e else e)) c.

(** ** Notifications and effects *)

(** The calls made on [showToast] (lib/toast), with their arguments. *)
Inductive Toast : Type :=
| toast_success (title description : string)
| toast_error (title description : string)
| toast_warning (title description : string)
| book_createSuccess (title : string)
| book_borrowSuccess (title : string)
| book_borrowError (description : string)
| book_returnSuccess (title : string)
| book_returnError (description : string)
| auth_logoutSuccess.

(** The failure notifications, with the message they carry. *)
Definition failure_message (t : Toast) : option string :=
  match t with
  | toast_error _ d | book_borrowError d | book_returnError d => Some d
  | _ => None
  end.

(** What a callback registered with [setTimeout] does when it fires. *)
Inductive Task : Type :=
| task_push (url : string)
| task_clear.

Inductive Effect : Type :=
| Notify (t : Toast)
| Invalidate (filter : QueryKey)
| ClearCache
| RouterPush (url : string)
| SetCookie (cookie : string)
| SignOut (callbackUrl : string)
| ConsoleError (tag : string).

(** The query client and everything observable around it: the cache, the
    effects performed so far (oldest first) and the timers still pending. *)
Record World : Type := mkWorld {
  cache : Cache;
  effects : list Effect;
  timers : list (nat * Task)
}.

Definition emit (e : Effect) (w : World) : World :=
  {| cache := cache w; effects := effects w ++ [e]; timers := timers w |}.

Definition with_cache (f : Cache -> Cache) (w : World) : World :=
  {| cache := f (cache w); effects := effects w; timers := timers w |}.

(** [queryClient.invalidateQueries({ queryKey: filter })] *)
Definition invalidateQueries (filter : QueryKey) (w : World) : World :=
  emit (Invalidate filter) (with_cache (markStale filter) w).

(** [queryClient.clear()]: every entry is removed. *)
Definition clear (w : World) : World :=
  emit ClearCache (with_cache (fun _ => ∅) w).

Definition showToast (t : Toast) (w : World) : World := emit (Notify t) w.

Definition router_push (url : string) (w : World) : World :=
  emit (RouterPush url) w.

(** [setTimeout(task, delay)]: the task is queued behind the timers that are
    due no later than it. *)
Fixpoint enqueue (delay : nat) (t : Task) (q : list (nat * Task)) : list (nat * Task) :=
  match q with
  | [] => [(delay, t)]
  | (d, t') :: q' =>
      if (d <=? delay)%nat then (d, t') :: enqueue delay t q'
      else (delay, t) :: q
  end.

Definition setTimeout (t : Task) (delay : nat) (w : World) : World :=
  {| cache := cache w; effects := effects w; timers := enqueue delay t (timers w) |}.

Definition run_task (t : Task) (w : World) : World :=
  match t with
  | task_push url => router_push url w
  | task_clear => clear w
  end.

(** The event loop fires the pending timers once the running handler has
    returned, the earliest first.  The tasks of this program set no timer. *)
Definition run_timers (w : World) : World :=
  foldl (fun w' dt => run_task (snd dt) w')
        {| cache := cache w; effects := effects w; timers := [] |}
        (timers w).

Definition notifications (w : World) : list Toast :=
  omap (fun e => match e with Notify t => Some t | _ => None end) (effects w).

(** ** Invalidation utilities of the guide (utils/queryInvalidation.js) *)

Definition invalidateDashboardQueries (w : World) : World :=
  invalidateQueries ["all-resources"] (invalidateQueries ["dashboard-stats"] w).

Definition invalidateAfterResourceChange (entityName : string) (w : World) : World :=
  let w1 := invalidateDashboardQueries w in
  let w2 := invalidateQueries [entityName] w1 in
  let singularKey := slice_init entityName in
  invalidateQueries [singularKey] w2.

(** ** Invalidation utilities of the application (lib/utils/queryInvalidation)

    The module is imported by the hooks but is not among the sources: the
    key prefixes each helper invalidates are a parameter of the development. *)
Record InvalidationRules : Type := mkRules {
  afterBookChange : list QueryKey;
  afterUserChange : list QueryKey;
  afterBorrowChange : list QueryKey;
  afterReviewChange : list QueryKey;
  afterAdminChange : list QueryKey;
  afterRecommendationChange : list QueryKey;
  allQueries : list QueryKey
}.

Definition invalidateAll (filters : list QueryKey) (w : World) : World :=
  foldl (fun w' f => invalidateQueries f w') w filters.

(** Modelled from the spec: the prefixes of lib/utils/queryInvalidation, which
    is not among the sources, as the comments at the call sites list them
    (books, borrows, reviews, analytics, admin, ...) and as section 3 names
    them ([borrows], [books], [admin-stats]). *)
Definition documentedRules : InvalidationRules :=
  {| afterBookChange := [["books"]; ["borrows"]; ["reviews"]; ["analytics"]; ["admin-stats"]];
     afterUserChange := [["users"]; ["borrows"]; ["reviews"]; ["analytics"]; ["admin-stats"]];
     afterBorrowChange := [["borrows"]; ["books"]; ["reviews"]; ["analytics"]; ["admin-stats"]];
     afterReviewChange := [["reviews"]; ["books"]; ["analytics"]];
     afterAdminChange := [["users"]; ["admin-requests"]; ["admin-stats"]];
     afterRecommendationChange := [["recommendations"]];
     allQueries := [[]] |}.

(** ** The mutation hooks (hooks/useMutations.ts) *)

Inductive Role : Type := USER | ADMIN.
Inductive Status : Type := PENDING | APPROVED | REJECTED.

Definition role_string (r : Role) : string :=
  match r with USER => "USER" | ADMIN => "ADMIN" end.

Definition status_string (s : Status) : string :=
  match s with PENDING => "PENDING" | APPROVED => "APPROVED" | REJECTED => "REJECTED" end.

(** A call of [mutate]: the hook with the fields of its variables that the
    hook reads.  Optional fields are options. *)
Inductive Mutation : Type :=
| useCreateBook (title : string)
| useUpdateBook (bookId : string) (title : option string)
| useDeleteBook (bookIds : list string) (bookTitle : option string)
| useUpdateUserRole (userId : string) (role : Role) (userName : option string)
| useUpdateUserStatus (userId : string) (status : Status) (userName : option string)
| useApproveUser (userId : string) (userName : option string)
| useRejectUser (userId : string) (userName : option string)
| useBorrowBook (userId bookId : string) (bookTitle : option string)
| useApproveBorrow (recordId : string) (bookTitle userName : option string)
| useRejectBorrow (recordId : string) (bookTitle userName : option string)
| useReturnBook (recordId : string) (bookTitle : option string)
| useCreateReview (bookId : string) (bookTitle : option string)
| useUpdateReview (reviewId : string) (bookTitle : option string)
| useDeleteReview (reviewId : string) (bookTitle : option string)
| useApproveAdminRequest (requestId reviewedBy : string) (userName : option string)
| useRejectAdminRequest (requestId reviewedBy : string)
    (rejectionReason userName : option string)
| useRemoveAdminPrivileges (userId removedBy : string) (userName : option string)
| useUpdateFineConfig (fineAmount : Z) (updatedBy : option string)
| useSendDueReminders
| useSendOverdueReminders
| useUpdateOverdueFines (customFineAmount : option Z)
| useGenerateAllUserRecommendations
| useUpdateTrendingBooks
| useRefreshRecommendationCache.

(** What the server actions resolve to: [{ success, message?, error?, data? }]. *)
Record ActionResult : Type := mkResult {
  success : bool;
  message : option string;
  error : option string;
  data : JSON
}.

(** A settled promise: fulfilled with a value or rejected with an [Error]
    carrying a message. *)
Inductive Settled (T : Type) : Type :=
| Fulfilled (v : T)
| Rejected (msg : string).
Arguments Fulfilled {T} v.
Arguments Rejected {T} msg.

(** The hooks of the admin and book actions inspect an [ActionResult]; the
    hooks of lib/services await the service and hand its value on. *)
Definition wraps_action (m : Mutation) : bool :=
  match m with
  | useCreateBook _ | useUpdateBook _ _ | useDeleteBook _ _
  | useUpdateUserRole _ _ _ | useUpdateUserStatus _ _ _
  | useApproveUser _ _ | useRejectUser _ _
  | useBorrowBook _ _ _ | useApproveBorrow _ _ _ | useRejectBorrow _ _ _
  | useReturnBook _ _
  | useApproveAdminRequest _ _ _ | useRejectAdminRequest _ _ _ _
  | useRemoveAdminPrivileges _ _ _ => true
  | _ => false
  end.

Definition reply_type (checks : bool) : Type :=
  if checks then ActionResult else JSON.

Definition Reply (m : Mutation) : Type := reply_type (wraps_action m).

(** The outcome of [mutationFn]: the value returned or the [Error] thrown. *)
Inductive Outcome : Type :=
| Returns (d : JSON)
| Throws (msg : string).

(** [const result = await action(...);
     if (!result.success) throw new Error(result.<field> || dflt);
     return <ret>;] *)
Definition checked (field : ActionResult -> option string) (dflt : string)
    (ret : ActionResult -> JSON) (s : Settled ActionResult) : Outcome :=
  match s with
  | Rejected e => Throws e
  | Fulfilled result =>
      if negb (success result) then Throws (or_else (field result) dflt)
      else Returns (ret result)
  end.
Arguments checked : simpl never.

(** [const result = await service(...); return result;] *)
Definition awaited (s : Settled JSON) : Outcome :=
  match s with
  | Rejected e => Throws e
  | Fulfilled result => Returns result
  end.

Definition opt_json (o : option string) : JSON :=
  match o with
  | Some s => JStr s
  | None => JUndefined
  end.

Definition mutationFn (m : Mutation) : Settled (Reply m) -> Outcome :=
  match m as m0 return Settled (Reply m0) -> Outcome with
  | useCreateBook _ => checked message "Failed to create book" data
  | useUpdateBook _ _ => checked message "Failed to update book" data
  | useDeleteBook bookIds _ =>
      checked message "Failed to delete book(s)"
        (fun result => JObj [("bookIds", JArr (map JStr bookIds));
                             ("message", opt_json (message result))])
  | useUpdateUserRole userId role _ =>
      checked error "Failed to update user role"
        (fun _ => JObj [("userId", JStr userId); ("role", JStr (role_string role))])
  | useUpdateUserStatus userId status _ =>
      checked error "Failed to update user status"
        (fun _ => JObj [("userId", JStr userId); ("status", JStr (status_string status))])
  | useApproveUser userId _ =>
      checked error "Failed to approve user"
        (fun _ => JObj [("userId", JStr userId); ("status", JStr "APPROVED")])
  | useRejectUser userId _ =>
      checked error "Failed to reject user"
        (fun _ => JObj [("userId", JStr userId); ("status", JStr "REJECTED")])
  | useBorrowBook _ _ _ => checked error "Failed to request book" data
  | useApproveBorrow recordId _ _ =>
      checked error "Failed to approve borrow request"
        (fun _ => JObj [("recordId", JStr recordId)])
  | useRejectBorrow recordId _ _ =>
      checked error "Failed to reject borrow request"
        (fun _ => JObj [("recordId", JStr recordId)])
  | useReturnBook _ _ => checked error "Failed to return book" data
  | useCreateReview _ _ => awaited
  | useUpdateReview _ _ => awaited
  | useDeleteReview _ _ => awaited
  | useApproveAdminRequest _ _ _ => checked error "Failed to approve admin request" data
  | useRejectAdminRequest _ _ _ _ => checked error "Failed to reject admin request" data
  | useRemoveAdminPrivileges userId _ _ =>
      checked error "Failed to remove admin privileges"
        (fun _ => JObj [("userId", JStr userId)])
  | useUpdateFineConfig _ _ => awaited
  | useSendDueReminders => awaited
  | useSendOverdueReminders => awaited
  | useUpdateOverdueFines _ => awaited
  | useGenerateAllUserRecommendations => awaited
  | useUpdateTrendingBooks => awaited
  | useRefreshRecommendationCache => awaited
  end.

Definition is_str (j : JSON) (s : string) : bool :=
  match j with
  | JStr s' => String.eqb s' s
  | _ => false
  end.

Definition is_num (j : JSON) (z : Z) : bool :=
  match j with
  | JNum z' => z' =? z
  | _ => false
  end.

(** [count !== 1 ? "s" : EmptyString] *)
Definition plural (count : JSON) : string :=
  if is_num count 1 then EmptyString else "s".

(** The [onError] callbacks. *)
Definition onError (m : Mutation) (msg : string) (w : World) : World :=
  match m with
  | useCreateBook title =>
      showToast (toast_error "Creation Failed"
        (or_string msg
           ("Unable to create " +:+ quoted title +:+
            ". Please check your input and try again."))) w
  | useUpdateBook bookId title =>
      let bookTitle := or_else title (or_string bookId "Book") in
      showToast (toast_error "Update Failed"
        (or_string msg
           ("Unable to update " +:+ quoted bookTitle +:+
            ". Please check your input and try again."))) w
  | useDeleteBook bookIds bookTitle =>
      let count := length bookIds in
      let bookTitle := or_else bookTitle (if (count =? 1)%nat then "book" else "books") in
      showToast (toast_error "Deletion Failed"
        (or_string msg
           ("Unable to delete " +:+
            (if (count =? 1)%nat then quoted bookTitle else pretty count +:+ " books") +:+
            ". " +:+
            (if includes "active borrows" msg
             then "Books with active borrows cannot be deleted."
             else "Please try again.")))) w
  | useUpdateUserRole _ _ userName =>
      let userName := or_else userName "User" in
      showToast (toast_error "Role Update Failed"
        (or_string msg ("Unable to update " +:+ userName +:+ "'s role. Please try again."))) w
  | useUpdateUserStatus _ _ userName =>
      let userName := or_else userName "User" in
      showToast (toast_error "Status Update Failed"
        (or_string msg ("Unable to update " +:+ userName +:+ "'s status. Please try again."))) w
  | useApproveUser _ userName =>
      let userName := or_else userName "User" in
      showToast (toast_error "Approval Failed"
        (or_string msg ("Unable to approve " +:+ userName +:+ "'s account. Please try again."))) w
  | useRejectUser _ userName =>
      let userName := or_else userName "User" in
      showToast (toast_error "Rejection Failed"
        (or_string msg ("Unable to reject " +:+ userName +:+ "'s account. Please try again."))) w
  | useBorrowBook _ _ bookTitle =>
      let bookTitle := or_else bookTitle "book" in
      showToast (book_borrowError
        (or_string msg ("Unable to request " +:+ quoted bookTitle +:+ ". Please try again."))) w
  | useApproveBorrow _ bookTitle _ =>
      let bookTitle := or_else bookTitle "book" in
      showToast (toast_error "Approval Failed"
        (or_string msg
           ("Unable to approve borrow request for " +:+ quoted bookTitle +:+ ". " +:+
            (if includes "no longer available" msg
             then "The book is no longer available."
             else "Please try again.")))) w
  | useRejectBorrow _ bookTitle _ =>
      let bookTitle := or_else bookTitle "book" in
      showToast (toast_error "Rejection Failed"
        (or_string msg
           ("Unable to reject borrow request for " +:+ quoted bookTitle +:+
            ". Please try again."))) w
  | useReturnBook _ bookTitle =>
      let bookTitle := or_else bookTitle "book" in
      showToast (book_returnError
        (or_string msg ("Unable to return " +:+ quoted bookTitle +:+ ". Please try again."))) w
  | useCreateReview _ bookTitle =>
      let bookTitle := or_else bookTitle "book" in
      showToast (toast_error "Review Failed"
        (or_string msg
           ("Unable to submit review for " +:+ quoted bookTitle +:+ ". " +:+
            (if includes "already reviewed" msg
             then "You have already reviewed this book."
             else if includes "borrowed" msg
             then "You must have borrowed this book to review it."
             else "Please try again.")))) w
  | useUpdateReview _ bookTitle =>
      let bookTitle := or_else bookTitle "book" in
      showToast (toast_error "Update Failed"
        (or_string msg
           ("Unable to update review for " +:+ quoted bookTitle +:+ ". " +:+
            (if includes "not found" msg || includes "permission" msg
             then "Review not found or you don't have permission to edit it."
             else "Please try again.")))) w
  | useDeleteReview _ bookTitle =>
      let bookTitle := or_else bookTitle "book" in
      showToast (toast_error "Deletion Failed"
        (or_string msg
           ("Unable to delete review for " +:+ quoted bookTitle +:+ ". " +:+
            (if includes "not found" msg || includes "permission" msg
             then "Review not found or you don't have permission to delete it."
             else "Please try again.")))) w
  | useApproveAdminRequest _ _ userName =>
      let userName := or_else userName "User" in
      showToast (toast_error "Approval Failed"
        (or_string msg
           ("Unable to approve admin request for " +:+ userName +:+ ". " +:+
            (if includes "already been processed" msg
             then "This request has already been processed."
             else "Please try again.")))) w
  | useRejectAdminRequest _ _ _ userName =>
      let userName := or_else userName "User" in
      showToast (toast_error "Rejection Failed"
        (or_string msg
           ("Unable to reject admin request for " +:+ userName +:+ ". " +:+
            (if includes "already been processed" msg
             then "This request has already been processed."
             else "Please try again.")))) w
  | useRemoveAdminPrivileges _ _ userName =>
      let userName := or_else userName "User" in
      showToast (toast_error "Removal Failed"
        (or_string msg
           ("Unable to remove admin privileges from " +:+ userName +:+ ". " +:+
            (if includes "not an admin" msg
             then "User is not an admin."
             else if includes "not found" msg
             then "User not found."
             else "Please try again.")))) w
  | useUpdateFineConfig _ _ =>
      showToast (toast_error "Update Failed"
        (or_string msg
           ("Unable to update fine configuration. " +:+
            (if includes "positive number" msg
             then "Fine amount must be a positive number."
             else "Please try again.")))) w
  | useSendDueReminders =>
      showToast (toast_error "Reminder Failed"
        (or_string msg "Unable to send due soon reminders. Please try again.")) w
  | useSendOverdueReminders =>
      showToast (toast_error "Reminder Failed"
        (or_string msg "Unable to send overdue reminders. Please try again.")) w
  | useUpdateOverdueFines _ =>
      showToast (toast_error "Update Failed"
        (or_string msg "Unable to update overdue fines. Please try again.")) w
  | useGenerateAllUserRecommendations =>
      showToast (toast_error "Failed to Generate Recommendations"
        (or_string msg "Unable to generate recommendations. Please try again.")) w
  | useUpdateTrendingBooks =>
      showToast (toast_error "Failed to Update Trending Books"
        (or_string msg "Unable to update trending books. Please try again.")) w
  | useRefreshRecommendationCache =>
      showToast (toast_error "Failed to Refresh Cache"
        (or_string msg "Unable to refresh recommendation cache. Please try again.")) w
  end.

Section Hooks.

(** The key prefixes of lib/utils/queryInvalidation. *)
Variable rules : InvalidationRules.

Definition invalidateAfterBookChange : World -> World :=
  invalidateAll (afterBookChange rules).
Definition invalidateAfterUserChange : World -> World :=
  invalidateAll (afterUserChange rules).
Definition invalidateAfterBorrowChange : World -> World :=
  invalidateAll (afterBorrowChange rules).
Definition invalidateAfterReviewChange : World -> World :=
  invalidateAll (afterReviewChange rules).
Definition invalidateAfterAdminChange : World -> World :=
  invalidateAll (afterAdminChange rules).
Definition invalidateAfterRecommendationChange : World -> World :=
  invalidateAll (afterRecommendationChange rules).
Definition invalidateAllQueries : World -> World :=
  invalidateAll (allQueries rules).

(** How a callback ends: it returns, or it throws an error with the message
    [e]; either way it leaves a world behind. *)
Inductive Completion : Type :=
| Done (w : World)
| Raised (e : string) (w : World).

(** A read that may throw, made in the world [w]. *)
Definition reading {A : Type} (r : Result A) (w : World) (k : A -> Completion)
    : Completion :=
  match r with
  | Ok a => k a
  | Raise e => Raised e w
  end.

(** The [onSuccess] callbacks: invalidate, then notify.  The arguments of the
    toast are evaluated before it is shown: a read that throws leaves the
    invalidations done and no toast. *)
Definition onSuccess (m : Mutation) (d : JSON) (w : World) : Completion :=
  match m with
  | useCreateBook title =>
      let w := invalidateAfterBookChange w in
      Done (showToast (book_createSuccess title) w)
  | useUpdateBook _ title =>
      let w := invalidateAfterBookChange w in
      let bookTitle := jor (jor (opt_json title) (prop d "title")) (JStr "Book") in
      Done (showToast (toast_success "Book Updated"
        (quoted (template bookTitle) +:+ " has been updated successfully.")) w)
  | useDeleteBook _ bookTitle =>
      let w := invalidateAfterBookChange w in
      reading (get d "bookIds") w (fun bookIds =>
      reading (get_length bookIds) w (fun count =>
      let bookTitle :=
        or_else bookTitle (if is_num count 1 then "Book" else template count +:+ " books") in
      Done (showToast (toast_success "Book(s) Deleted"
        ("Successfully deleted " +:+
         (if is_num count 1 then quoted bookTitle else template count +:+ " books") +:+
         ".")) w)))
  | useUpdateUserRole _ _ userName =>
      let w := invalidateAfterUserChange w in
      reading (get d "role") w (fun role =>
      let roleText := if is_str role "ADMIN" then "admin" else "regular user" in
      let userName := or_else userName "User" in
      Done (showToast (toast_success "Role Updated"
        (userName +:+ " has been " +:+
         (if is_str role "ADMIN" then "promoted to" else "demoted from") +:+
         " " +:+ roleText +:+ ".")) w))
  | useUpdateUserStatus _ _ userName =>
      let w := invalidateAfterUserChange w in
      reading (get d "status") w (fun status =>
      let statusText :=
        if is_str status "APPROVED" then "approved"
        else if is_str status "REJECTED" then "rejected"
        else "pending" in
      let userName := or_else userName "User" in
      Done (showToast (toast_success "Status Updated"
        (userName +:+ "'s account has been " +:+ statusText +:+ ".")) w))
  | useApproveUser _ userName =>
      let w := invalidateAfterUserChange w in
      let userName := or_else userName "User" in
      Done (showToast (toast_success "User Approved"
        (userName +:+ "'s account has been approved successfully.")) w)
  | useRejectUser _ userName =>
      let w := invalidateAfterUserChange w in
      let userName := or_else userName "User" in
      Done (showToast (toast_success "User Rejected"
        (userName +:+ "'s account has been rejected.")) w)
  | useBorrowBook _ _ bookTitle =>
      let w := invalidateAfterBorrowChange w in
      let bookTitle := or_else bookTitle "Book" in
      Done (showToast (book_borrowSuccess bookTitle) w)
  | useApproveBorrow _ bookTitle userName =>
      let w := invalidateAfterBorrowChange w in
      let bookTitle := or_else bookTitle "Book" in
      let userName := or_else userName "User" in
      Done (showToast (toast_success "Borrow Request Approved"
        (userName +:+ " can now borrow " +:+ quoted bookTitle +:+ ".")) w)
  | useRejectBorrow _ bookTitle userName =>
      let w := invalidateAfterBorrowChange w in
      let bookTitle := or_else bookTitle "Book" in
      let userName := or_else userName "User" in
      Done (showToast (toast_success "Borrow Request Rejected"
        ("Borrow request for " +:+ quoted bookTitle +:+ " by " +:+ userName +:+
         " has been rejected.")) w)
  | useReturnBook _ bookTitle =>
      let w := invalidateAfterBorrowChange w in
      let bookTitle := or_else bookTitle "Book" in
      if truthy (prop d "isOverdue")
         && negb (is_undefined (prop d "daysOverdue"))
         && negb (is_undefined (prop d "fineAmount"))
      then
        reading (call_toFixed2 "data.fineAmount" (prop d "fineAmount")) w (fun fine =>
        Done (showToast (toast_warning "Book Returned with Fine"
          (quoted bookTitle +:+ " was returned " +:+ template (prop d "daysOverdue") +:+
           " days overdue. Fine: $" +:+ fine)) w))
      else Done (showToast (book_returnSuccess bookTitle) w)
  | useCreateReview _ bookTitle =>
      let w := invalidateAfterReviewChange w in
      let bookTitle := or_else bookTitle "Book" in
      Done (showToast (toast_success "Review Submitted"
        ("Your review for " +:+ quoted bookTitle +:+ " has been submitted successfully.")) w)
  | useUpdateReview _ bookTitle =>
      let w := invalidateAfterReviewChange w in
      let bookTitle := or_else bookTitle "Book" in
      Done (showToast (toast_success "Review Updated"
        ("Your review for " +:+ quoted bookTitle +:+ " has been updated successfully.")) w)
  | useDeleteReview _ bookTitle =>
      let w := invalidateAfterReviewChange w in
      let bookTitle := or_else bookTitle "Book" in
      Done (showToast (toast_success "Review Deleted"
        ("Your review for " +:+ quoted bookTitle +:+ " has been deleted successfully.")) w)
  | useApproveAdminRequest _ _ userName =>
      let w := invalidateAfterAdminChange w in
      let w := invalidateAfterUserChange w in
      let userName :=
        jor (jor (opt_json userName) (prop d "userFullName")) (JStr "User") in
      Done (showToast (toast_success "Admin Request Approved"
        (template userName +:+ " has been granted admin privileges.")) w)
  | useRejectAdminRequest _ _ _ userName =>
      let w := invalidateAfterAdminChange w in
      let w := invalidateAfterUserChange w in
      let userName :=
        jor (jor (opt_json userName) (prop d "userFullName")) (JStr "User") in
      Done (showToast (toast_success "Admin Request Rejected"
        ("Admin request from " +:+ template userName +:+ " has been rejected.")) w)
  | useRemoveAdminPrivileges _ _ userName =>
      let w := invalidateAfterAdminChange w in
      let w := invalidateAfterUserChange w in
      let userName := or_else userName "User" in
      Done (showToast (toast_success "Admin Privileges Removed"
        (userName +:+ "'s admin privileges have been removed.")) w)
  | useUpdateFineConfig fineAmount _ =>
      let w := invalidateAfterAdminChange w in
      let w := invalidateAfterBorrowChange w in
      Done (showToast (toast_success "Fine Configuration Updated"
        ("Daily fine amount has been updated to $" +:+ toFixed2 fineAmount +:+
         " per day.")) w)
  | useSendDueReminders =>
      let w := invalidateAfterAdminChange w in
      let w := invalidateAfterBorrowChange w in
      reading (get d "results") w (fun results =>
      let count := jor (length_of results) (JNum 0) in
      Done (showToast (toast_success "Reminders Sent"
        ("Successfully sent " +:+ template count +:+ " due soon reminder" +:+
         plural count +:+ ".")) w))
  | useSendOverdueReminders =>
      let w := invalidateAfterAdminChange w in
      let w := invalidateAfterBorrowChange w in
      reading (get d "results") w (fun results =>
      let count := jor (length_of results) (JNum 0) in
      Done (showToast (toast_success "Overdue Reminders Sent"
        ("Successfully sent " +:+ template count +:+ " overdue reminder" +:+
         plural count +:+ ".")) w))
  | useUpdateOverdueFines _ =>
      let w := invalidateAfterAdminChange w in
      let w := invalidateAfterBorrowChange w in
      reading (get d "results") w (fun results =>
      let count := jor (length_of results) (JNum 0) in
      Done (showToast (toast_success "Overdue Fines Updated"
        ("Successfully updated fines for " +:+ template count +:+ " overdue book" +:+
         plural count +:+ ".")) w))
  | useGenerateAllUserRecommendations =>
      let w := invalidateAfterRecommendationChange w in
      reading (get d "totalRecommendations") w (fun totalRecommendations =>
      reading (get d "totalUsers") w (fun totalUsers =>
      Done (showToast (toast_success "Recommendations Generated"
        ("Successfully generated " +:+ template totalRecommendations +:+
         " personalized recommendations for " +:+ template totalUsers +:+
         " users using AI-powered algorithms.")) w)))
  | useUpdateTrendingBooks =>
      let w := invalidateAfterRecommendationChange w in
      reading (get d "trendingCount") w (fun trendingCount =>
      Done (showToast (toast_success "Trending Books Updated"
        ("Successfully updated trending books. Found " +:+
         template trendingCount +:+ " trending book" +:+
         (if is_num trendingCount 1 then EmptyString else "s") +:+
         " based on recent borrowing activity.")) w))
  | useRefreshRecommendationCache =>
      let w := invalidateAfterRecommendationChange w in
      Done (showToast (toast_success "Recommendation Cache Refreshed"
        "Recommendation cache has been cleared and refreshed. All cached recommendations will be regenerated on next request.") w)
  end.

(** The callbacks a component passes to [mutate]; they run after those of
    the hook. *)
Record MutateOptions : Type := mkOptions {
  callSuccess : JSON -> World -> World;
  callError : string -> World -> World
}.

Definition noOptions : MutateOptions :=
  {| callSuccess := fun _ w => w; callError := fun _ w => w |}.

(** How a mutation settles: with the value of [mutationFn], or with the
    error thrown by [mutationFn] or by the [onSuccess] of the hook. *)
Inductive Ending : Type :=
| Succeeded (d : JSON)
| Failed (e : string).

(** [mutationFn], then the callbacks of the hook.  The query library awaits
    [onSuccess] inside the block that guards [mutationFn]: an error thrown by
    [onSuccess] is handed to the [onError] of the hook, as one thrown by
    [mutationFn] is, and the mutation settles as failed. *)
Definition settle (m : Mutation) (s : Settled (Reply m)) (w : World) : Ending * World :=
  match mutationFn m s with
  | Returns d =>
      match onSuccess m d w with
      | Done w1 => (Succeeded d, w1)
      | Raised e w1 => (Failed e, onError m e w1)
      end
  | Throws msg => (Failed msg, onError m msg w)
  end.

(** One mutation from [mutate] to the settled state: [mutationFn] and the
    callbacks of the hook, then the callback of the call that matches the way
    the mutation settled. *)
Definition mutate (m : Mutation) (opts : MutateOptions) (s : Settled (Reply m))
    (w : World) : World :=
  match settle m s w with
  | (Succeeded d, w1) => callSuccess opts d w1
  | (Failed e, w1) => callError opts e w1
  end.

End Hooks.

(** ** Components *)

(** components/BorrowBook.tsx: navigation is deferred by a timer. *)
Module BorrowBook.

Definition options : MutateOptions :=
  {| callSuccess := fun _ w => setTimeout (task_push "/my-profile") 200 w;
     callError := fun _ w => emit (ConsoleError "[BorrowBook] Mutation error:") w |}.

Definition handleBorrowBook (rules : InvalidationRules) (isEligible : bool)
    (userId bookId : string) (s : Settled ActionResult) (w : World) : World :=
  if negb isEligible then w
  else mutate rules (useBorrowBook userId bookId None) options s w.

End BorrowBook.

(** The second copy of the component navigates from the callback itself. *)
Module BorrowBookDirect.

Definition options : MutateOptions :=
  {| callSuccess := fun _ w => router_push "/my-profile" w;
     callError := fun _ w => emit (ConsoleError "[BorrowBook] Mutation error:") w |}.

Definition handleBorrowBook (rules : InvalidationRules) (isEligible : bool)
    (userId bookId : string) (s : Settled ActionResult) (w : World) : World :=
  if negb isEligible then w
  else mutate rules (useBorrowBook userId bookId None) options s w.

End BorrowBookDirect.

(** The [catch] block shared by the two logout handlers. *)
Definition logoutFailed (w : World) : World :=
  showToast (toast_error "Logout Failed"
               "There was an error logging out. Please try again.")
            (emit (ConsoleError "Logout error:") w).

(** [await signOut({ redirect: true, callbackUrl })] *)
Definition signOut (callbackUrl : string) (w : World) : World :=
  emit (SignOut callbackUrl) w.

(** components/LogoutButton.tsx.  The result pairs the new value of the
    [isLoggingOut] state with the world. *)
Module LogoutButton.

Definition handleLogout (rules : InvalidationRules) (isLoggingOut : bool)
    (signedOut : Settled unit) (w : World) : bool * World :=
  if isLoggingOut then (isLoggingOut, w)
  else
    let w := showToast auth_logoutSuccess w in
    let w := invalidateAllQueries rules w in
    let w := clear w in
    let w := signOut "/sign-in" w in
    match signedOut with
    | Fulfilled _ => (true, w)
    | Rejected _ => (false, logoutFailed w)
    end.

End LogoutButton.

(** components/ProfileDropdown.tsx: the cache is cleared by a timer set once
    [signOut] has resolved. *)
Module ProfileDropdown.

Definition handleLogout (isLoggingOut : bool) (signedOut : Settled unit)
    (w : World) : bool * World :=
  if isLoggingOut then (isLoggingOut, w)
  else
    let w := showToast auth_logoutSuccess w in
    let w := emit (SetCookie "logout-in-progress=true; path=/; max-age=10; SameSite=Lax") w in
    let w := signOut "/sign-in" w in
    match signedOut with
    | Fulfilled _ => (true, setTimeout task_clear 500 w)
    | Rejected _ => (false, logoutFailed w)
    end.

End ProfileDropdown.

(** ** The read path of the cache *)

Module ReadCache.

(** The entries, the fingerprints whose fetch is pending and the fetcher
    invocations made so far, oldest first. *)
Record Store : Type := mkStore {
  entries : Cache;
  inflight : gset QueryKey;
  fetches : list QueryKey
}.

Definition get (fp : QueryKey) (st : Store) : option CacheEntry := entries st !! fp.

(** Modelled from the spec: [set] of section 4.1, missing from the sources
    with the rest of the query client: a wholesale overwrite that clears
    staleness and resets the timestamp. *)
Definition set (fp : QueryKey) (v : JSON) (now : Z) (st : Store) : Store :=
  {| entries := <[fp := {| value := v; staleness := false; lastFetchedAt := now |}]> (entries st);
     inflight := inflight st;
     fetches := fetches st |}.

(** Modelled from the spec: section 5, one fetch per fingerprint at a time;
    the fetcher is invoked unless a fetch of the fingerprint is pending. *)
Definition trigger (fp : QueryKey) (st : Store) : Store :=
  if bool_decide (fp ∈ inflight st) then st
  else {| entries := entries st;
          inflight := {[fp]} ∪ inflight st;
          fetches := fetches st ++ [fp] |}.

(** Modelled from the spec: [read] of section 4.1, missing from the sources
    with the rest of the query client.  A fresh entry is served as it is; a
    stale or absent one triggers the fetcher and the last known value, if
    any, is returned at once. *)
Definition read (fp : QueryKey) (st : Store) : option JSON * Store :=
  match entries st !! fp with
  | Some e => if staleness e then (Some (value e), trigger fp st) else (Some (value e), st)
  | None => (None, trigger fp st)
  end.

(** [n] readers of the same fingerprint within one turn of the event loop,
    that is before any fetch resolves. *)
Fixpoint reads (n : nat) (fp : QueryKey) (st : Store) : list (option JSON) * Store :=
  match n with
  | O => ([], st)
  | S n' =>
      let (v, st1) := read fp st in
      let (vs, st2) := reads n' fp st1 in
      (v :: vs, st2)
  end.

(** Modelled from the spec: the resolution of a fetch, sections 4.1 and 5.
    The entry is replaced by the fetched value unless it already carries a
    later timestamp, in which case the write is dropped. *)
Definition resolve (fp : QueryKey) (v : JSON) (fetchedAt : Z) (st : Store) : Store :=
  let keep := match entries st !! fp with
              | Some e => fetchedAt <? lastFetchedAt e
              | None => false
              end in
  {| entries := if keep then entries st
                else <[fp := {| value := v; staleness := false; lastFetchedAt := fetchedAt |}]>
                       (entries st);
     inflight := inflight st ∖ {[fp]};
     fetches := fetches st |}.

End ReadCache.

(** ** Notions used by the statements *)

(** The prefixes the [onSuccess] callback of a hook invalidates, in order. *)
Definition invalidated (rules : InvalidationRules) (m : Mutation) : list QueryKey :=
  match m with
  | useCreateBook _ | useUpdateBook _ _ | useDeleteBook _ _ => afterBookChange rules
  | useUpdateUserRole _ _ _ | useUpdateUserStatus _ _ _
  | useApproveUser _ _ | useRejectUser _ _ => afterUserChange rules
  | useBorrowBook _ _ _ | useApproveBorrow _ _ _ | useRejectBorrow _ _ _
  | useReturnBook _ _ => afterBorrowChange rules
  | useCreateReview _ _ | useUpdateReview _ _ | useDeleteReview _ _ =>
      afterReviewChange rules
  | useApproveAdminRequest _ _ _ | useRejectAdminRequest _ _ _ _
  | useRemoveAdminPrivileges _ _ _ => afterAdminChange rules ++ afterUserChange rules
  | useUpdateFineConfig _ _ | useSendDueReminders | useSendOverdueReminders
  | useUpdateOverdueFines _ => afterAdminChange rules ++ afterBorrowChange rules
  | useGenerateAllUserRecommendations | useUpdateTrendingBooks
  | useRefreshRecommendationCache => afterRecommendationChange rules
  end.

(** A key is hit by a list of filters when one of them matches it. *)
Definition hit (filters : list QueryKey) (k : QueryKey) : bool :=
  existsb (fun f => matches f k) filters.

Definition stale_if (b : bool) (e : CacheEntry) : CacheEntry :=
  if b then mark e else e.

(** The value a fulfilled service call carries. *)
Definition payload (m : Mutation) : Reply m -> JSON :=
  match wraps_action m as b return (reply_type b -> JSON) with
  | true => data
  | false => fun v => v
  end.

(** Whether a fulfilled service call reports success. *)
Definition succeeded (m : Mutation) : Reply m -> bool :=
  match wraps_action m as b return (reply_type b -> bool) with
  | true => success
  | false => fun _ => true
  end.

(** The field of the action result that carries the failure message. *)
Definition failure_field (m : Mutation) (r : ActionResult) : option string :=
  match m with
  | useCreateBook _ | useUpdateBook _ _ | useDeleteBook _ _ => message r
  | _ => error r
  end.

(** The failure message the service supplied, if any. *)
Definition reported (m : Mutation) : Settled (Reply m) -> option string :=
  match wraps_action m as b return (Settled (reply_type b) -> option string) with
  | true => fun s => match s with
                     | Rejected e => Some e
                     | Fulfilled r => failure_field m r
                     end
  | false => fun s => match s with
                      | Rejected e => Some e
                      | Fulfilled _ => None
                      end
  end.

(** Where the value returned by [mutationFn] comes from. *)
Inductive Provenance : Type := FromService | FromRequest | Mixed.

Definition provenance (m : Mutation) : Provenance :=
  match m with
  | useUpdateUserRole _ _ _ | useUpdateUserStatus _ _ _
  | useApproveUser _ _ | useRejectUser _ _
  | useApproveBorrow _ _ _ | useRejectBorrow _ _ _
  | useRemoveAdminPrivileges _ _ _ => FromRequest
  | useDeleteBook _ _ => Mixed
  | _ => FromService
  end.

(** The hooks whose fallback text selects an explanation by substring. *)
Definition matches_substrings (m : Mutation) : bool :=
  match m with
  | useDeleteBook _ _ | useApproveBorrow _ _ _
  | useCreateReview _ _ | useUpdateReview _ _ | useDeleteReview _ _
  | useApproveAdminRequest _ _ _ | useRejectAdminRequest _ _ _ _
  | useRemoveAdminPrivileges _ _ _ | useUpdateFineConfig _ _ => true
  | _ => false
  end.

Definition emptyWorld : World := {| cache := ∅; effects := []; timers := [] |}.

(** The description of the notification [onError] shows for a message. *)
Definition shown (m : Mutation) (msg : string) : option string :=
  last (notifications (onError m msg emptyWorld)) ≫= failure_message.

(** [a] occurs in the trace before every effect selected by [Q]. *)
Definition preceded_by (a : Effect) (Q : Effect -> bool) (l : list Effect) : Prop :=
  forall j y, l !! j = Some y -> Q y = true -> exists i, (i < j)%nat /\ l !! i = Some a.

Definition is_push (e : Effect) : bool :=
  match e with RouterPush _ => true | _ => false end.

Definition is_clear (e : Effect) : bool :=
  match e with ClearCache => true | _ => false end.

(** ** Sample data *)

Definition cachedBooks : JSON := JArr [JObj [("id", JStr "b1"); ("title", JStr "Dune")]].

Definition sampleCache : Cache :=
  <[ ["books"] := {| value := cachedBooks; staleness := false; lastFetchedAt := 10 |} ]>
  (<[ ["users"] := {| value := JArr [JObj [("id", JStr "u1"); ("role", JStr "USER")]];
                      staleness := false; lastFetchedAt := 11 |} ]>
  (<[ ["fine-config"] := {| value := JNum 1; staleness := false; lastFetchedAt := 12 |} ]> ∅)).

Definition sampleWorld : World :=
  {| cache := sampleCache; effects := []; timers := [] |}.

(** The book as the service returns it after the update. *)
Definition freshBook : JSON :=
  JObj [("id", JStr "b1"); ("title", JStr "Dune Messiah"); ("availableCopies", JNum 3)].

Definition bookUpdated : ActionResult :=
  {| success := true; message := None; error := None; data := freshBook |}.

Definition alreadyProcessed : ActionResult :=
  {| success := false; message := None;
     error := Some "This request has already been processed"; data := JUndefined |}.

(** The user as the service holds it after the role change. *)
Definition roleUpdated : ActionResult :=
  {| success := true; message := None; error := None;
     data := JObj [("id", JStr "u1"); ("role", JStr "ADMIN");
                   ("updatedAt", JStr "2025-01-01T00:00:00Z")] |}.

(** A failed action result that carries no message at all. *)
Definition silentFailure : ActionResult :=
  {| success := false; message := None; error := None; data := JUndefined |}.

(** The generic texts of the hooks, written out for the comparison with what
    the hooks show.  [generic_failure] is the text of the error when a server
    action reports a failure and gives no message: it names the operation and
    the entity.  The hooks that await a service have no such text. *)
Definition generic_failure (m : Mutation) : option string :=
  match m with
  | useCreateBook _ => Some "Failed to create book"
  | useUpdateBook _ _ => Some "Failed to update book"
  | useDeleteBook _ _ => Some "Failed to delete book(s)"
  | useUpdateUserRole _ _ _ => Some "Failed to update user role"
  | useUpdateUserStatus _ _ _ => Some "Failed to update user status"
  | useApproveUser _ _ => Some "Failed to approve user"
  | useRejectUser _ _ => Some "Failed to reject user"
  | useBorrowBook _ _ _ => Some "Failed to request book"
  | useApproveBorrow _ _ _ => Some "Failed to approve borrow request"
  | useRejectBorrow _ _ _ => Some "Failed to reject borrow request"
  | useReturnBook _ _ => Some "Failed to return book"
  | useApproveAdminRequest _ _ _ => Some "Failed to approve admin request"
  | useRejectAdminRequest _ _ _ _ => Some "Failed to reject admin request"
  | useRemoveAdminPrivileges _ _ _ => Some "Failed to remove admin privileges"
  | _ => None
  end.

(** The name a text gives to the book or to the user of the request. *)
Definition named (name : option string) (dflt : string) : string :=
  match name with
  | Some (String a n) => String a n
  | _ => dflt
  end.

(** [generic_fallback] is the text shown for an error without a message: it
    names the operation and the book, the user or the entity it was applied
    to, and asks to try again. *)
Definition generic_fallback (m : Mutation) : string :=
  match m with
  | useCreateBook title =>
      "Unable to create " +:+ quoted title +:+ ". Please check your input and try again."
  | useUpdateBook bookId title =>
      "Unable to update " +:+ quoted (named title (named (Some bookId) "Book")) +:+
      ". Please check your input and try again."
  | useDeleteBook [_] bookTitle =>
      "Unable to delete " +:+ quoted (named bookTitle "book") +:+ ". Please try again."
  | useDeleteBook bookIds _ =>
      "Unable to delete " +:+ (pretty (length bookIds) +:+ " books") +:+
      ". Please try again."
  | useUpdateUserRole _ _ userName =>
      "Unable to update " +:+ named userName "User" +:+ "'s role. Please try again."
  | useUpdateUserStatus _ _ userName =>
      "Unable to update " +:+ named userName "User" +:+ "'s status. Please try again."
  | useApproveUser _ userName =>
      "Unable to approve " +:+ named userName "User" +:+ "'s account. Please try again."
  | useRejectUser _ userName =>
      "Unable to reject " +:+ named userName "User" +:+ "'s account. Please try again."
  | useBorrowBook _ _ bookTitle =>
      "Unable to request " +:+ quoted (named bookTitle "book") +:+ ". Please try again."
  | useApproveBorrow _ bookTitle _ =>
      "Unable to approve borrow request for " +:+ quoted (named bookTitle "book") +:+
      ". Please try again."
  | useRejectBorrow _ bookTitle _ =>
      "Unable to reject borrow request for " +:+ quoted (named bookTitle "book") +:+
      ". Please try again."
  | useReturnBook _ bookTitle =>
      "Unable to return " +:+ quoted (named bookTitle "book") +:+ ". Please try again."
  | useCreateReview _ bookTitle =>
      "Unable to submit review for " +:+ quoted (named bookTitle "book") +:+
      ". Please try again."
  | useUpdateReview _ bookTitle =>
      "Unable to update review for " +:+ quoted (named bookTitle "book") +:+
      ". Please try again."
  | useDeleteReview _ bookTitle =>
      "Unable to delete review for " +:+ quoted (named bookTitle "book") +:+
      ". Please try again."
  | useApproveAdminRequest _ _ userName =>
      "Unable to approve admin request for " +:+ named userName "User" +:+
      ". Please try again."
  | useRejectAdminRequest _ _ _ userName =>
      "Unable to reject admin request for " +:+ named userName "User" +:+
      ". Please try again."
  | useRemoveAdminPrivileges _ _ userName =>
      "Unable to remove admin privileges from " +:+ named userName "User" +:+
      ". Please try again."
  | useUpdateFineConfig _ _ => "Unable to update fine configuration. Please try again."
  | useSendDueReminders => "Unable to send due soon reminders. Please try again."
  | useSendOverdueReminders => "Unable to send overdue reminders. Please try again."
  | useUpdateOverdueFines _ => "Unable to update overdue fines. Please try again."
  | useGenerateAllUserRecommendations =>
      "Unable to generate recommendations. Please try again."
  | useUpdateTrendingBooks => "Unable to update trending books. Please try again."
  | useRefreshRecommendationCache =>
      "Unable to refresh recommendation cache. Please try again."
  end.

(** The generic text for a settled service call that carries no message:
    that of [mutationFn] when the action resolved, the fallback when the call
    was rejected. *)
Definition generic_text (m : Mutation) (s : Settled (Reply m)) : option string :=
  match s with
  | Fulfilled _ => generic_failure m
  | Rejected _ => Some (generic_fallback m)
  end.

(** The rejection of a delete by the service. *)
Definition hasActiveBorrows : ActionResult :=
  {| success := false; message := Some "Cannot delete books with active borrows";
     error := None; data := JUndefined |}.

(** [s.endsWith(suffix)], as a proposition. *)
Definition ends_with (suffix s : string) : Prop := exists p, s = p +:+ suffix.

(** The pending borrow request as the service returns it. *)
Definition borrowRequested : ActionResult :=
  {| success := true; message := None; error := None;
     data := JObj [("id", JStr "r1"); ("status", JStr "PENDING")] |}.

(** A store in which the fetch of the cached books is pending. *)
Definition pendingStore : ReadCache.Store :=
  {| ReadCache.entries := sampleCache;
     ReadCache.inflight := {[ ["books"] ]};
     ReadCache.fetches := [["books"]] |}.

(** A store whose cached books have been invalidated, no fetch pending. *)
Definition staleStore : ReadCache.Store :=
  {| ReadCache.entries :=
       <[ ["books"] := {| value := cachedBooks; staleness := true; lastFetchedAt := 10 |} ]> ∅;
     ReadCache.inflight := ∅;
     ReadCache.fetches := [] |}.

(** ** Further components that drive the hooks *)

(** components/BookBorrowButton.tsx: which button a book page shows and
    whether borrowing is allowed. *)
Module BookBorrowButton.

(** The fields of a borrow record the component reads. *)
Record Borrow : Type := mkBorrow {
  id : string;
  bookId : string;
  status : string;
  dueDate : option string
}.

(** [userBorrows?.find(...)]: the first record of this book that is borrowed
    or pending; [userBorrows] is [undefined] until the query has data. *)
Definition existingBorrow (userBorrows : option (list Borrow)) (book : string)
    : option Borrow :=
  userBorrows ≫=
    List.find (fun borrow =>
                 String.eqb (bookId borrow) book
                 && (String.eqb (status borrow) "BORROWED"
                     || String.eqb (status borrow) "PENDING")).

Definition hasExistingBorrow (userBorrows : option (list Borrow)) (book : string) : bool :=
  bool_decide (is_Some (existingBorrow userBorrows book)).

(** [existingBorrow?.status === "BORROWED"] *)
Definition isBorrowed (userBorrows : option (list Borrow)) (book : string) : bool :=
  match existingBorrow userBorrows book with
  | Some b => String.eqb (status b) "BORROWED"
  | None => false
  end.

(** [userStatus === "APPROVED"] where [userStatus] may be null or undefined. *)
Definition approved (userStatus : option string) : bool :=
  match userStatus with
  | Some s => String.eqb s "APPROVED"
  | None => false
  end.

Definition isEligible (userBorrows : option (list Borrow)) (book : string)
    (availableCopies : Z) (isActive : bool) (userStatus : option string) : bool :=
  (0 <? availableCopies) && approved userStatus && isActive
  && negb (hasExistingBorrow userBorrows book).

Definition eligibilityMessage (userBorrows : option (list Borrow)) (book : string)
    (availableCopies : Z) (isActive : bool) : string :=
  if hasExistingBorrow userBorrows book
  then "You already have an active borrow or pending request for this book"
  else if negb isActive then "This book is currently unavailable"
  else if availableCopies <=? 0 then "Book is not available"
  else "You are not eligible to borrow this book".

(** What is rendered: the return button with its props, or the borrow button
    with the eligibility it is given. *)
Inductive Rendered : Type :=
| ReturnBookButton (recordId bookTitle : string) (due : option string)
| BorrowBookButton (book user : string) (eligible : bool) (message : string).

Definition render (userBorrows : option (list Borrow)) (book user bookTitle : string)
    (availableCopies : Z) (isActive : bool) (userStatus : option string) : Rendered :=
  match existingBorrow userBorrows book with
  | Some b =>
      if String.eqb (status b) "BORROWED"
      then ReturnBookButton (id b) bookTitle
             (match dueDate b with
              | Some d => if truthy_string d then Some d else None
              | None => None
              end)
      else BorrowBookButton book user
             (isEligible userBorrows book availableCopies isActive userStatus)
             (eligibilityMessage userBorrows book availableCopies isActive)
  | None =>
      BorrowBookButton book user
        (isEligible userBorrows book availableCopies isActive userStatus)
        (eligibilityMessage userBorrows book availableCopies isActive)
  end.

End BookBorrowButton.

(** components/AdminBookRequestsList.tsx: the handlers of the admin list of
    borrow requests. *)
Module AdminBookRequestsList.

(** The fields of a request the handlers read; both names may be null. *)
Record Request : Type := mkRequest {
  id : string;
  bookTitle : option string;
  userName : option string
}.

(** [requests.find((r) => r.id === recordId)] *)
Definition findRequest (requests : list Request) (recordId : string) : option Request :=
  List.find (fun r => String.eqb (id r) recordId) requests.

(** [request?.field || undefined] *)
Definition field_or_undefined (request : option Request)
    (field : Request -> option string) : option string :=
  or_opt (request ≫= field) None.

Definition handleApproveBorrow (rules : InvalidationRules) (requests : list Request)
    (recordId : string) (s : Settled ActionResult) (w : World) : World :=
  let request := findRequest requests recordId in
  mutate rules
    (useApproveBorrow recordId (field_or_undefined request bookTitle)
       (field_or_undefined request userName))
    noOptions s w.

Definition handleRejectBorrow (rules : InvalidationRules) (requests : list Request)
    (recordId : string) (s : Settled ActionResult) (w : World) : World :=
  let request := findRequest requests recordId in
  mutate rules
    (useRejectBorrow recordId (field_or_undefined request bookTitle)
       (field_or_undefined request userName))
    noOptions s w.

Definition handleReturnBook (rules : InvalidationRules) (requests : list Request)
    (recordId : string) (s : Settled ActionResult) (w : World) : World :=
  let request := findRequest requests recordId in
  mutate rules (useReturnBook recordId (field_or_undefined request bookTitle))
    noOptions s w.

End AdminBookRequestsList.

(** components/AdminUsersList.tsx: the handlers of the admin list of users
    and the buttons shown for a user. *)
Module AdminUsersList.

Record User : Type := mkUser {
  id : string;
  fullName : string;
  role : string;
  status : string
}.

Record AdminRequest : Type := mkAdminRequest {
  request_id : string;
  userFullName : string
}.

(** [users.find((u) => u.id === userId)?.fullName] *)
Definition nameOf (users : list User) (userId : string) : option string :=
  fullName <$> List.find (fun u => String.eqb (id u) userId) users.

(** [adminRequests.find((r) => r.id === requestId)?.userFullName] *)
Definition requesterOf (adminRequests : list AdminRequest) (requestId : string)
    : option string :=
  userFullName <$> List.find (fun r => String.eqb (request_id r) requestId) adminRequests.

Definition handleUpdateUserRole (rules : InvalidationRules) (users : list User)
    (userId : string) (newRole : Role) (s : Settled ActionResult) (w : World) : World :=
  mutate rules (useUpdateUserRole userId newRole (nameOf users userId)) noOptions s w.

Definition handleUpdateUserStatus (rules : InvalidationRules) (users : list User)
    (userId : string) (newStatus : Status) (s : Settled ActionResult) (w : World) : World :=
  mutate rules (useUpdateUserStatus userId newStatus (nameOf users userId)) noOptions s w.

(** [session?.user?.id] is [adminId]; the handlers return at once when it is
    missing or empty. *)
Definition handleApproveAdminRequest (rules : InvalidationRules)
    (adminRequests : list AdminRequest) (adminId : option string) (requestId : string)
    (s : Settled ActionResult) (w : World) : World :=
  match adminId with
  | Some admin =>
      if negb (truthy_string admin) then w
      else mutate rules
             (useApproveAdminRequest requestId admin (requesterOf adminRequests requestId))
             noOptions s w
  | None => w
  end.

Definition handleRejectAdminRequest (rules : InvalidationRules)
    (adminRequests : list AdminRequest) (adminId : option string) (requestId : string)
    (s : Settled ActionResult) (w : World) : World :=
  match adminId with
  | Some admin =>
      if negb (truthy_string admin) then w
      else mutate rules
             (useRejectAdminRequest requestId admin (Some "Rejected by admin")
                (requesterOf adminRequests requestId))
             noOptions s w
  | None => w
  end.

Definition handleRemoveAdminPrivileges (rules : InvalidationRules) (users : list User)
    (adminId : option string) (userId : string)
    (s : Settled ActionResult) (w : World) : World :=
  match adminId with
  | Some admin =>
      if negb (truthy_string admin) then w
      else mutate rules (useRemoveAdminPrivileges userId admin (nameOf users userId))
             noOptions s w
  | None => w
  end.

(** [user.id !== (currentUserId || session?.user?.id)] *)
Definition differs_from (userId : string) (current : option string) : bool :=
  match current with
  | Some c => negb (String.eqb userId c)
  | None => true
  end.

(** The conditions under which the three groups of buttons of a row show. *)
Definition showsRemoveAdmin (user : User) (currentUserId sessionUserId : option string)
    : bool :=
  String.eqb (role user) "ADMIN"
  && differs_from (id user) (or_opt currentUserId sessionUserId).

Definition showsMakeAdmin (user : User) : bool := String.eqb (role user) "USER".

Definition showsApproveReject (user : User) : bool := String.eqb (status user) "PENDING".

End AdminUsersList.

(** components/FineManagement.tsx.  The amounts are the integers of the
    model; [parseFloat(..) || 0] keeps NaN out of the state. *)
Module FineManagement.

Record State : Type := mkState {
  editableAmount : Z;
  isEditing : bool
}.

(** [fineConfig?.fineAmount || 1.0] *)
Definition fineAmount (fineConfig : option Z) : Z :=
  match fineConfig with
  | Some a => if a =? 0 then 1 else a
  | None => 1
  end.

Definition handleCancelEdit (fineConfig : option Z) (st : State) : State :=
  {| editableAmount := fineAmount fineConfig; isEditing := false |}.

Definition handleEditMode (fineConfig : option Z) (st : State) : State :=
  {| editableAmount := fineAmount fineConfig; isEditing := true |}.

(** The second mutation is issued from the success callback of the first. *)
Definition options (rules : InvalidationRules) (amount : Z) (s2 : Settled JSON)
    : MutateOptions :=
  {| callSuccess := fun _ w =>
       mutate rules (useUpdateOverdueFines (Some amount)) noOptions s2 w;
     callError := fun _ w => w |}.

(** [setIsEditing(false)] is the success callback of the second mutation,
    which is issued by the success callback of the first: it runs when both
    mutations settle as succeeded. *)
Definition handleSaveAmount (rules : InvalidationRules) (st : State)
    (s1 s2 : Settled JSON) (w : World) : State * World :=
  if editableAmount st <? 0 then (st, w)
  else
    let first := useUpdateFineConfig (editableAmount st) (Some "admin") in
    let second := useUpdateOverdueFines (Some (editableAmount st)) in
    let w' := mutate rules first (options rules (editableAmount st) s2) s1 w in
    match settle rules first s1 w with
    | (Succeeded _, w1) =>
        match settle rules second s2 w1 with
        | (Succeeded _, _) =>
            ({| editableAmount := editableAmount st; isEditing := false |}, w')
        | (Failed _, _) => (st, w')
        end
    | (Failed _, _) => (st, w')
    end.

End FineManagement.

(** [1000 * 60 * 60 * 24]: the milliseconds of a day.  Dates are carried as
    their [getTime()] value. *)
Definition day_ms : Z := 1000 * 60 * 60 * 24.

(** components/ReturnBookButton.tsx: the overdue computation and the label. *)
Module ReturnBookButton.

(** [dueDate && today > new Date(dueDate)] *)
Definition isOverdue (dueDate : option Z) (today : Z) : bool :=
  match dueDate with
  | Some due => due <? today
  | None => false
  end.

Definition daysOverdue (dueDate : option Z) (today : Z) : Z :=
  match dueDate with
  | Some due => if due <? today then (today - due) / day_ms else 0
  | None => 0
  end.

Definition label (isPending : bool) (dueDate : option Z) (today : Z) : string :=
  if isPending then "Returning..."
  else if isOverdue dueDate today
  then "Return Book (" +:+ pretty (daysOverdue dueDate today) +:+ " days overdue)"
  else "Return Book".

End ReturnBookButton.

(** components/MyProfileTabs.tsx: what a borrow card computes from the
    record and the clock. *)
Module BorrowCard.

(** [today.getTime() + today.getTimezoneOffset() * 60000] *)
Definition todayUTC (today tzOffset : Z) : Z := today + tzOffset * 60000.

(** [Date.UTC(d.getUTCFullYear(), d.getUTCMonth(), d.getUTCDate())]: the
    start of the UTC day of a date. *)
Definition dateOnlyUTC (t : Z) : Z := t / day_ms * day_ms.

Definition isOverdue (status : string) (dueDate : option Z) (today tzOffset : Z) : bool :=
  String.eqb status "BORROWED"
  && match dueDate with
     | Some due => due <? todayUTC today tzOffset
     | None => false
     end.

Definition daysOverdue (status : string) (dueDate : option Z) (today tzOffset : Z) : Z :=
  match dueDate with
  | Some due =>
      if isOverdue status dueDate today tzOffset
      then (dateOnlyUTC (todayUTC today tzOffset) - dateOnlyUTC due) / day_ms
      else 0
  | None => 0
  end.

(** [Math.ceil(a / day_ms)] on integers. *)
Definition ceil_days (a : Z) : Z := - ((- a) / day_ms).

Definition daysRemaining (status : string) (dueDate : option Z) (today tzOffset : Z) : Z :=
  match dueDate with
  | Some due =>
      if String.eqb status "BORROWED" && negb (isOverdue status dueDate today tzOffset)
      then ceil_days (due - todayUTC today tzOffset)
      else 0
  | None => 0
  end.

(** [isOverdue ? daysOverdue * 1.0 : 0] *)
Definition calculatedFine (status : string) (dueDate : option Z) (today tzOffset : Z) : Z :=
  if isOverdue status dueDate today tzOffset
  then daysOverdue status dueDate today tzOffset * 1
  else 0.

(** The class of the border of the card. *)
Definition borderClass (status : string) (dueDate : option Z) (today tzOffset : Z)
    : string :=
  let overdue := isOverdue status dueDate today tzOffset in
  let remaining := daysRemaining status dueDate today tzOffset in
  if String.eqb status "PENDING" then "border-gray-500 bg-gray-800/20"
  else if String.eqb status "BORROWED" && overdue then "border-red-600 bg-red-900/10"
  else if String.eqb status "BORROWED" && (remaining <=? 2) && negb overdue
  then "border-orange-400 bg-orange-900/10"
  else if String.eqb status "BORROWED" then "border-blue-500 bg-blue-900/10"
  else if String.eqb status "RETURNED" then "border-green-500 bg-green-900/10"
  else "border-gray-600 bg-gray-800/30".

(** The line shown for a borrowed book with a due date; [formatted] is the
    due date as [formatDate] prints it. *)
Definition dueLine (status : string) (dueDate : option Z) (today tzOffset : Z)
    (formatted : string) : option string :=
  match dueDate with
  | Some _ =>
      if String.eqb status "BORROWED" then
        let remaining := daysRemaining status dueDate today tzOffset in
        Some (if isOverdue status dueDate today tzOffset
              then "OVERDUE! " +:+ pretty (daysOverdue status dueDate today tzOffset)
                   +:+ " days late"
              else if remaining <=? 2
              then "Due Soon! " +:+ pretty remaining +:+ " day"
                   +:+ (if remaining =? 1 then EmptyString else "s") +:+ " left"
              else "Due on " +:+ formatted)
      else None
  | None => None
  end.

(** The fine badge: the amount printed and its caption, when one shows. *)
Definition fineBadge (status : string) (dueDate : option Z) (fine : Z)
    (today tzOffset : Z) : option (string * string) :=
  let calculated := calculatedFine status dueDate today tzOffset in
  if (0 <? fine) || (0 <? calculated)
  then Some (toFixed2 (if 0 <? fine then fine else calculated),
             if isOverdue status dueDate today tzOffset then "overdue fine" else "fine")
  else None.

End BorrowCard.

(** components/MyProfileTabs.tsx: the lists behind the three tabs and the
    statistics of the history tab. *)
Module MyProfileTabs.

(** The fields of a transformed borrow record used below. *)
Record BorrowRecord : Type := mkRecord {
  id : string;
  status : string;
  dueDate : option Z;
  fineAmount : Z;
  renewalCount : Z
}.

(** [a ?? b] *)
Definition nullish {A : Type} (a : option A) (b : A) : A := default b a.

Definition has_status (s : string) (r : BorrowRecord) : bool := String.eqb (status r) s.

Section Tabs.

(** The transformed query data and the six optional props. *)
Variable allBorrowsFromQuery : list BorrowRecord.
Variables initialActiveBorrows initialPendingRequests initialBorrowHistory
          legacyActiveBorrows legacyPendingRequests legacyBorrowHistory
          : option (list BorrowRecord).

Definition allBorrows : list BorrowRecord :=
  if (0 <? length allBorrowsFromQuery)%nat then allBorrowsFromQuery
  else nullish initialBorrowHistory (nullish legacyBorrowHistory []).

Definition activeBorrows : list BorrowRecord :=
  if (0 <? length allBorrowsFromQuery)%nat
  then List.filter (has_status "BORROWED") allBorrowsFromQuery
  else nullish legacyActiveBorrows
         (nullish initialActiveBorrows
            (List.filter (has_status "BORROWED") allBorrows)).

Definition pendingRequests : list BorrowRecord :=
  if (0 <? length allBorrowsFromQuery)%nat
  then List.filter (has_status "PENDING") allBorrowsFromQuery
  else nullish legacyPendingRequests
         (nullish initialPendingRequests
            (List.filter (has_status "PENDING") allBorrows)).

Definition borrowHistory : list BorrowRecord :=
  if (0 <? length allBorrowsFromQuery)%nat then allBorrowsFromQuery
  else nullish legacyBorrowHistory (nullish initialBorrowHistory allBorrows).

End Tabs.

(** The fine a record contributes to the statistics: the days overdue for an
    overdue book, the stored fine otherwise. *)
Definition statFine (today tzOffset : Z) (r : BorrowRecord) : Z :=
  match dueDate r with
  | Some due =>
      if BorrowCard.isOverdue (status r) (dueDate r) today tzOffset
      then (BorrowCard.dateOnlyUTC (BorrowCard.todayUTC today tzOffset)
            - BorrowCard.dateOnlyUTC due) / day_ms * 1
      else fineAmount r
  | None => fineAmount r
  end.

(** The predicate of the filter behind the count of records with fines. *)
Definition countsAsFined (today tzOffset : Z) (r : BorrowRecord) : bool :=
  match dueDate r with
  | Some due =>
      if BorrowCard.isOverdue (status r) (dueDate r) today tzOffset
      then 0 <? (BorrowCard.dateOnlyUTC (BorrowCard.todayUTC today tzOffset)
                 - BorrowCard.dateOnlyUTC due) / day_ms
      else 0 <? fineAmount r
  | None => 0 <? fineAmount r
  end.

Definition withFines (today tzOffset : Z) (history : list BorrowRecord) : nat :=
  length (List.filter (countsAsFined today tzOffset) history).

(** [history.reduce((sum, r) => sum + fine(r), 0)] *)
Definition totalFines (today tzOffset : Z) (history : list BorrowRecord) : Z :=
  foldl (fun sum r => sum + statFine today tzOffset r) 0 history.

Definition totalRenewals (history : list BorrowRecord) : Z :=
  foldl (fun sum r => sum + renewalCount r) 0 history.

End MyProfileTabs.

(** The other utilities of the guide (utils/queryInvalidation.js). *)
Module GuideUtils.

(** [stored] is what [JSON.parse(sessionStorage.getItem("userId"))] yields,
    [None] when it is null or throws. *)
Definition invalidateUserQueries (userId stored : option string) (entityName : string)
    (w : World) : World :=
  let userId := match userId with
                | Some u => if truthy_string u then Some u else stored
                | None => stored
                end in
  match userId with
  | Some u => if truthy_string u then invalidateQueries [entityName; u] w else w
  | None => w
  end.

Definition invalidateAfterEntityCreation (entityName : string)
    (userId stored : option string) (w : World) : World :=
  let w := invalidateUserQueries userId stored ("user-" +:+ entityName) w in
  let w := invalidateDashboardQueries w in
  invalidateAfterResourceChange entityName w.

Definition invalidateAfterUserChange (w : World) : World :=
  invalidateDashboardQueries w.

End GuideUtils.

(** More sample data. *)
Definition noBooksDeleted : ActionResult :=
  {| success := true; message := Some "0 books deleted"; error := None;
     data := JUndefined |}.

(** A borrow refused by the service. *)
Definition borrowRefused : ActionResult :=
  {| success := false; message := None; error := Some "Book is not available";
     data := JUndefined |}.

(** The borrows of a user with a pending request for the book [b1]. *)
Definition pendingBorrows : list BookBorrowButton.Borrow :=
  [ {| BookBorrowButton.id := "r0"; BookBorrowButton.bookId := "b2";
       BookBorrowButton.status := "RETURNED"; BookBorrowButton.dueDate := None |};
    {| BookBorrowButton.id := "r1"; BookBorrowButton.bookId := "b1";
       BookBorrowButton.status := "PENDING"; BookBorrowButton.dueDate := None |} ].

(** The requests of the admin list used in the examples. *)
Definition sampleRequests : list AdminBookRequestsList.Request :=
  [ {| AdminBookRequestsList.id := "r1";
       AdminBookRequestsList.bookTitle := Some "Dune";
       AdminBookRequestsList.userName := Some "Ana" |};
    {| AdminBookRequestsList.id := "r2";
       AdminBookRequestsList.bookTitle := Some EmptyString;
       AdminBookRequestsList.userName := None |} ].

Definition requestApproved : ActionResult :=
  {| success := true; message := None; error := None; data := JUndefined |}.

(** Records of a borrow history used in the examples: an overdue book with
    a stored fine, a returned one and a pending request. *)
Definition sampleHistory : list MyProfileTabs.BorrowRecord :=
  [ {| MyProfileTabs.id := "r1"; MyProfileTabs.status := "BORROWED";
       MyProfileTabs.dueDate := Some 0; MyProfileTabs.fineAmount := 5;
       MyProfileTabs.renewalCount := 1 |};
    {| MyProfileTabs.id := "r2"; MyProfileTabs.status := "RETURNED";
       MyProfileTabs.dueDate := Some 0; MyProfileTabs.fineAmount := 0;
       MyProfileTabs.renewalCount := 0 |};
    {| MyProfileTabs.id := "r3"; MyProfileTabs.status := "PENDING";
       MyProfileTabs.dueDate := None; MyProfileTabs.fineAmount := 0;
       MyProfileTabs.renewalCount := 0 |} ].

(** A cache holding the orders of two users. *)
Definition userOrdersWorld : World :=
  {| cache :=
       <[ ["user-orders"; "u1"] :=
            {| value := JArr []; staleness := false; lastFetchedAt := 20 |} ]>
       (<[ ["user-orders"; "u2"] :=
             {| value := JArr []; staleness := false; lastFetchedAt := 21 |} ]> ∅);
     effects := []; timers := [] |}.

(** The borrows of a user who holds the book [b1]. *)
Definition borrowedBooks : list BookBorrowButton.Borrow :=
  [ {| BookBorrowButton.id := "r7"; BookBorrowButton.bookId := "b1";
       BookBorrowButton.status := "BORROWED";
       BookBorrowButton.dueDate := Some "2025-01-15" |} ].

(** ** Lemmas on strings and on the cache *)

Lemma or_string_nonempty (s d : string) :
  d <> EmptyString -> or_string s d <> EmptyString.
Proof.
  intros Hd. unfold or_string. destruct s as [|a s']; simpl; [exact Hd | discriminate].
Qed.

Lemma or_else_nonempty (o : option string) (d : string) :
  d <> EmptyString -> or_else o d <> EmptyString.
Proof.
  intros Hd. destruct o as [s|]; simpl; [by apply or_string_nonempty | exact Hd].
Qed.

Lemma or_string_truthy (s d : string) :
  truthy_string s = true -> or_string s d = s.
Proof. unfold or_string. by intros ->. Qed.

Lemma starts_with_empty (p : string) :
  p <> EmptyString -> starts_with p EmptyString = false.
Proof. destruct p; [congruence | reflexivity]. Qed.

Lemma includes_truthy (sub s : string) :
  sub <> EmptyString -> includes sub s = true -> truthy_string s = true.
Proof.
  intros Hsub. destruct s as [|a s']; [|reflexivity].
  simpl. rewrite starts_with_empty by exact Hsub. discriminate.
Qed.

Lemma mark_idemp (e : CacheEntry) : mark (mark e) = mark e.
Proof. reflexivity. Qed.

Lemma stale_if_stale_if (a b : bool) (e : CacheEntry) :
  stale_if a (stale_if b e) = stale_if (b || a) e.
Proof. by destruct a, b. Qed.

Lemma lookup_markStale (f : QueryKey) (c : Cache) (k : QueryKey) :
  markStale f c !! k = stale_if (matches f k) <$> c !! k.
Proof.
  unfold markStale. rewrite map_lookup_imap.
  by destruct (c !! k).
Qed.

Lemma invalidateAll_app (fs gs : list QueryKey) (w : World) :
  invalidateAll (fs ++ gs) w = invalidateAll gs (invalidateAll fs w).
Proof. unfold invalidateAll. apply foldl_app. Qed.

Lemma cache_invalidateAll (fs : list QueryKey) (w : World) (k : QueryKey) :
  cache (invalidateAll fs w) !! k = stale_if (hit fs k) <$> cache w !! k.
Proof.
  revert w. induction fs as [|f fs IH]; intros w.
  - simpl. by destruct (cache w !! k).
  - change (invalidateAll (f :: fs) w) with (invalidateAll fs (invalidateQueries f w)).
    rewrite IH. simpl. rewrite lookup_markStale.
    destruct (cache w !! k) as [e|]; simpl; [|done].
    by rewrite stale_if_stale_if.
Qed.

Lemma effects_invalidateAll (fs : list QueryKey) (w : World) :
  effects (invalidateAll fs w) = effects w ++ map Invalidate fs.
Proof.
  revert w. induction fs as [|f fs IH]; intros w.
  - simpl. by rewrite app_nil_r.
  - change (invalidateAll (f :: fs) w) with (invalidateAll fs (invalidateQueries f w)).
    rewrite IH. simpl. by rewrite <- app_assoc.
Qed.

Lemma timers_invalidateAll (fs : list QueryKey) (w : World) :
  timers (invalidateAll fs w) = timers w.
Proof.
  revert w. induction fs as [|f fs IH]; intros w; [done|].
  change (invalidateAll (f :: fs) w) with (invalidateAll fs (invalidateQueries f w)).
  by rewrite IH.
Qed.

(** ** The shape of the callbacks *)

Lemma get_cases (j : JSON) (k : string) :
  get j k = Ok (prop j k)
  \/ exists e, truthy_string e = true /\ get j k = Raise e.
Proof.
  destruct j; try (left; reflexivity);
    right; eexists; (split; [|reflexivity]); reflexivity.
Qed.

Lemma get_length_cases (j : JSON) :
  get_length j = Ok (length_of j)
  \/ exists e, truthy_string e = true /\ get_length j = Raise e.
Proof.
  destruct j; try (left; reflexivity);
    right; eexists; (split; [|reflexivity]); reflexivity.
Qed.

Lemma call_toFixed2_cases (j : JSON) :
  (exists f, call_toFixed2 "data.fineAmount" j = Ok f)
  \/ exists e, truthy_string e = true /\ call_toFixed2 "data.fineAmount" j = Raise e.
Proof.
  destruct j; try (left; eexists; reflexivity);
    right; eexists; (split; [|reflexivity]); reflexivity.
Qed.

(** Every [onSuccess] is a run of prefix invalidations followed by one
    notification, or by an error in place of the notification. *)
Lemma onSuccess_shape (rules : InvalidationRules) (m : Mutation) (d : JSON) (w : World) :
  (exists t, failure_message t = None /\
     onSuccess rules m d w = Done (showToast t (invalidateAll (invalidated rules m) w)))
  \/ (exists e, truthy_string e = true /\
        onSuccess rules m d w = Raised e (invalidateAll (invalidated rules m) w)).
Proof.
  destruct m; simpl;
    unfold invalidateAfterBookChange, invalidateAfterUserChange,
      invalidateAfterBorrowChange, invalidateAfterReviewChange,
      invalidateAfterAdminChange, invalidateAfterRecommendationChange;
    rewrite ?invalidateAll_app;
    try (left; eexists; split; [|reflexivity]; reflexivity).
  - destruct (get_cases d "bookIds") as [-> | (e & He & ->)]; simpl;
      [|right; by exists e].
    destruct (get_length_cases (prop d "bookIds")) as [-> | (e & He & ->)]; simpl;
      [|right; by exists e].
    left; eexists; split; [|reflexivity]; reflexivity.
  - destruct (get_cases d "role") as [-> | (e & He & ->)]; simpl;
      [|right; by exists e].
    left; eexists; split; [|reflexivity]; reflexivity.
  - destruct (get_cases d "status") as [-> | (e & He & ->)]; simpl;
      [|right; by exists e].
    left; eexists; split; [|reflexivity]; reflexivity.
  - destruct (truthy (prop d "isOverdue") && negb (is_undefined (prop d "daysOverdue"))
              && negb (is_undefined (prop d "fineAmount")));
      [|left; eexists; split; [|reflexivity]; reflexivity].
    destruct (call_toFixed2_cases (prop d "fineAmount")) as [(f & ->) | (e & He & ->)];
      simpl; [|right; by exists e].
    left; eexists; split; [|reflexivity]; reflexivity.
  - destruct (get_cases d "results") as [-> | (e & He & ->)]; simpl;
      [|right; by exists e].
    left; eexists; split; [|reflexivity]; reflexivity.
  - destruct (get_cases d "results") as [-> | (e & He & ->)]; simpl;
      [|right; by exists e].
    left; eexists; split; [|reflexivity]; reflexivity.
  - destruct (get_cases d "results") as [-> | (e & He & ->)]; simpl;
      [|right; by exists e].
    left; eexists; split; [|reflexivity]; reflexivity.
  - destruct (get_cases d "totalRecommendations") as [-> | (e & He & ->)]; simpl;
      [|right; by exists e].
    destruct (get_cases d "totalUsers") as [-> | (e & He & ->)]; simpl;
      [|right; by exists e].
    left; eexists; split; [|reflexivity]; reflexivity.
  - destruct (get_cases d "trendingCount") as [-> | (e & He & ->)]; simpl;
      [|right; by exists e].
    left; eexists; split; [|reflexivity]; reflexivity.
Qed.

(** Every [onError] is one failure notification and nothing else. *)
Lemma onError_shape (m : Mutation) (msg : string) (w : World) :
  exists t desc, failure_message t = Some desc /\ onError m msg w = showToast t w.
Proof.
  destruct m; simpl; eexists; eexists; (split; [|reflexivity]); reflexivity.
Qed.

Lemma truthy_string_false (s : string) : truthy_string s = false -> s = EmptyString.
Proof. destruct s; [reflexivity | discriminate]. Qed.

Lemma onError_shown (m : Mutation) (msg : string) (w : World) :
  exists t desc, onError m msg w = showToast t w
                 /\ failure_message t = Some desc /\ shown m msg = Some desc.
Proof. destruct m; simpl; eexists; eexists; repeat split; reflexivity. Qed.

Lemma shown_truthy (m : Mutation) (msg : string) :
  truthy_string msg = true -> shown m msg = Some msg.
Proof.
  intros H. destruct m; unfold shown; simpl; by rewrite (or_string_truthy _ _ H).
Qed.

(** A mutation settles in one of three ways: [mutationFn] returns and
    [onSuccess] shows its notification; [mutationFn] returns and [onSuccess]
    throws, which [onError] reports; [mutationFn] throws, which [onError]
    reports. *)
Lemma settle_returns (rules : InvalidationRules) (m : Mutation)
    (s : Settled (Reply m)) (d : JSON) (w : World) :
  mutationFn m s = Returns d ->
  (exists t, failure_message t = None
     /\ onSuccess rules m d w = Done (showToast t (invalidateAll (invalidated rules m) w))
     /\ settle rules m s w
        = (Succeeded d, showToast t (invalidateAll (invalidated rules m) w)))
  \/ (exists e t, truthy_string e = true /\ failure_message t = Some e
        /\ onSuccess rules m d w = Raised e (invalidateAll (invalidated rules m) w)
        /\ settle rules m s w
           = (Failed e, showToast t (invalidateAll (invalidated rules m) w))).
Proof.
  intros E. unfold settle. rewrite E.
  destruct (onSuccess_shape rules m d w) as [(t & Ht & H) | (e & He & H)]; rewrite H.
  - left. by exists t.
  - right. destruct (onError_shown m e (invalidateAll (invalidated rules m) w))
      as (t & desc & -> & Ht & Hs).
    rewrite (shown_truthy m e He) in Hs. injection Hs as <-.
    by exists e, t.
Qed.

Lemma settle_throws (rules : InvalidationRules) (m : Mutation)
    (s : Settled (Reply m)) (msg : string) (w : World) :
  mutationFn m s = Throws msg ->
  settle rules m s w = (Failed msg, onError m msg w).
Proof. unfold settle. by intros ->. Qed.

Lemma mutate_noOptions (rules : InvalidationRules) (m : Mutation)
    (s : Settled (Reply m)) (w : World) :
  mutate rules m noOptions s w = (settle rules m s w).2.
Proof. unfold mutate. by destruct (settle rules m s w) as [[d|e] w1]. Qed.

Lemma mutate_throws (rules : InvalidationRules) (m : Mutation) (opts : MutateOptions)
    (s : Settled (Reply m)) (msg : string) (w : World) :
  mutationFn m s = Throws msg ->
  mutate rules m opts s w = callError opts msg (onError m msg w).
Proof. intros E. unfold mutate. by rewrite (settle_throws _ _ _ _ _ E). Qed.

Lemma mutate_returns (rules : InvalidationRules) (m : Mutation) (opts : MutateOptions)
    (s : Settled (Reply m)) (d : JSON) (w w1 : World) :
  mutationFn m s = Returns d ->
  onSuccess rules m d w = Done w1 ->
  mutate rules m opts s w = callSuccess opts d w1.
Proof. intros E H. unfold mutate, settle. by rewrite E, H. Qed.

Lemma mutate_raises (rules : InvalidationRules) (m : Mutation) (opts : MutateOptions)
    (s : Settled (Reply m)) (d : JSON) (e : string) (w w1 : World) :
  mutationFn m s = Returns d ->
  onSuccess rules m d w = Raised e w1 ->
  mutate rules m opts s w = callError opts e (onError m e w1).
Proof. intros E H. unfold mutate, settle. by rewrite E, H. Qed.

Lemma notifications_app (w : World) (l : list Effect) (c : Cache) (q : list (nat * Task)) :
  notifications {| cache := c; effects := effects w ++ l; timers := q |}
  = notifications w
    ++ omap (fun e => match e with Notify t => Some t | _ => None end) l.
Proof. unfold notifications. simpl. apply omap_app. Qed.

Lemma omap_Invalidate (fs : list QueryKey) :
  omap (fun e => match e with Notify t => Some t | _ => None end) (map Invalidate fs) = [].
Proof. induction fs as [|f fs IH]; [done | exact IH]. Qed.

Lemma notifications_invalidateAll (fs : list QueryKey) (w : World) (t : Toast) :
  notifications (showToast t (invalidateAll fs w)) = notifications w ++ [t].
Proof.
  unfold showToast, emit. rewrite notifications_app. simpl.
  unfold notifications. by rewrite effects_invalidateAll, omap_app, omap_Invalidate, app_nil_r.
Qed.

Lemma cache_mutate_failure (rules : InvalidationRules) (m : Mutation)
    (s : Settled (Reply m)) (w : World) (msg : string) :
  mutationFn m s = Throws msg ->
  mutate rules m noOptions s w = onError m msg w.
Proof. intros E. by rewrite (mutate_throws _ _ _ _ _ _ E). Qed.

Lemma cache_mutate (rules : InvalidationRules) (m : Mutation)
    (s : Settled (Reply m)) (w : World) (k : QueryKey) :
  cache (mutate rules m noOptions s w) !! k
  = match mutationFn m s with
    | Returns _ => stale_if (hit (invalidated rules m) k) <$> cache w !! k
    | Throws _ => cache w !! k
    end.
Proof.
  destruct (mutationFn m s) as [d|msg] eqn:E.
  - rewrite mutate_noOptions.
    destruct (settle_returns rules m s d w E)
      as [(t & _ & _ & ->) | (e & t & _ & _ & _ & ->)];
      simpl; apply cache_invalidateAll.
  - rewrite (cache_mutate_failure _ _ _ _ _ E).
    by destruct (onError_shape m msg w) as (t & desc & _ & ->).
Qed.

(** ** C1: what reconciliation does to the cache *)

(** C1, counterexample.  After a successful [useUpdateBook] the cached list of
    books, an entry of the mutated entity itself, still holds its old value
    and is flagged stale: it has not been overwritten with the fresh book and
    it is invalidated. *)
Lemma updateBook_own_entry_invalidated :
  let w1 := mutate documentedRules (useUpdateBook "b1" (Some "Dune Messiah")) noOptions
              (Fulfilled bookUpdated) sampleWorld in
  mutationFn (useUpdateBook "b1" (Some "Dune Messiah")) (Fulfilled bookUpdated)
    = Returns freshBook
  /\ cache w1 !! ["books"]
     = Some {| value := cachedBooks; staleness := true; lastFetchedAt := 10 |}
  /\ ~ (exists e, cache w1 !! ["books"] = Some e
                  /\ value e = freshBook /\ staleness e = false).
Proof.
  assert (H : cache (mutate documentedRules (useUpdateBook "b1" (Some "Dune Messiah"))
                       noOptions (Fulfilled bookUpdated) sampleWorld) !! ["books"]
              = Some {| value := cachedBooks; staleness := true; lastFetchedAt := 10 |}).
  { rewrite cache_mutate. reflexivity. }
  cbv zeta. split; [reflexivity|]. split; [exact H|].
  intros (e & He & _ & Hs). rewrite H in He. inversion He; subst. discriminate Hs.
Qed.

(** C1, amended.  A successful mutation only flags entries stale, by prefix:
    an entry is flagged exactly when one of the prefixes invalidated by the
    hook matches its key, whichever entity it belongs to, and apart from the
    flag every entry, present or absent, is left as it was; no value and no
    timestamp is overwritten. *)
Theorem reconcile_flags_without_overwrite (rules : InvalidationRules) (m : Mutation)
    (s : Settled (Reply m)) (w : World) (d : JSON) (k : QueryKey) :
  mutationFn m s = Returns d ->
  cache (mutate rules m noOptions s w) !! k
  = stale_if (hit (invalidated rules m) k) <$> cache w !! k.
Proof. intros E. rewrite cache_mutate. by rewrite E. Qed.

Lemma reconcile_flags_without_overwrite_witness :
  mutationFn (useUpdateBook "b1" (Some "Dune Messiah")) (Fulfilled bookUpdated)
    = Returns freshBook
  /\ cache (mutate documentedRules (useUpdateBook "b1" (Some "Dune Messiah")) noOptions
              (Fulfilled bookUpdated) sampleWorld) !! ["books"]
     = stale_if (hit (invalidated documentedRules (useUpdateBook "b1" (Some "Dune Messiah")))
                     ["books"])
       <$> cache sampleWorld !! ["books"].
Proof.
  split; [reflexivity|].
  apply (reconcile_flags_without_overwrite documentedRules
           (useUpdateBook "b1" (Some "Dune Messiah")) (Fulfilled bookUpdated)
           sampleWorld freshBook ["books"]).
  reflexivity.
Defined.

(** ** C2: a failed mutation *)

(** C2.  When the mutation function throws, the cache and the pending timers
    are what they were before the mutation and the trace grows by exactly one
    effect, a failure notification. *)
Theorem failed_mutation_leaves_cache (rules : InvalidationRules) (m : Mutation)
    (s : Settled (Reply m)) (w : World) (msg : string) :
  mutationFn m s = Throws msg ->
  cache (mutate rules m noOptions s w) = cache w
  /\ timers (mutate rules m noOptions s w) = timers w
  /\ exists t desc, failure_message t = Some desc
       /\ effects (mutate rules m noOptions s w) = effects w ++ [Notify t].
Proof.
  intros E. rewrite (cache_mutate_failure _ _ _ _ _ E).
  destruct (onError_shape m msg w) as (t & desc & Ht & ->).
  repeat split; try reflexivity. by exists t, desc.
Qed.

Lemma failed_mutation_leaves_cache_witness :
  mutationFn (useApproveBorrow "r1" (Some "Dune") None) (Fulfilled alreadyProcessed)
    = Throws "This request has already been processed"
  /\ cache (mutate documentedRules (useApproveBorrow "r1" (Some "Dune") None) noOptions
              (Fulfilled alreadyProcessed) sampleWorld) = cache sampleWorld
  /\ timers (mutate documentedRules (useApproveBorrow "r1" (Some "Dune") None) noOptions
               (Fulfilled alreadyProcessed) sampleWorld) = timers sampleWorld
  /\ exists t desc, failure_message t = Some desc
       /\ effects (mutate documentedRules (useApproveBorrow "r1" (Some "Dune") None)
                     noOptions (Fulfilled alreadyProcessed) sampleWorld)
          = effects sampleWorld ++ [Notify t].
Proof.
  split; [reflexivity|].
  apply (failed_mutation_leaves_cache documentedRules
           (useApproveBorrow "r1" (Some "Dune") None) (Fulfilled alreadyProcessed)
           sampleWorld "This request has already been processed").
  reflexivity.
Defined.

(** ** C3: the value the executor returns *)

Lemma checked_returns (field : ActionResult -> option string) (dflt : string)
    (ret : ActionResult -> JSON) (r : ActionResult) (d : JSON) :
  checked field dflt ret (Fulfilled r) = Returns d -> success r = true /\ d = ret r.
Proof.
  unfold checked. destruct (success r); simpl; [|discriminate].
  intros [= <-]. done.
Qed.

(** C3, counterexample.  [useUpdateUserRole] returns the two fields of its
    request whatever the service sends back, and after reconciliation the
    cached users are flagged stale, with their old value. *)
Lemma updateUserRole_returns_request :
  let m := useUpdateUserRole "u1" ADMIN None in
  let w1 := mutate documentedRules m noOptions (Fulfilled roleUpdated) sampleWorld in
  mutationFn m (Fulfilled roleUpdated)
    = Returns (JObj [("userId", JStr "u1"); ("role", JStr "ADMIN")])
  /\ JObj [("userId", JStr "u1"); ("role", JStr "ADMIN")] <> data roleUpdated
  /\ (exists e, cache w1 !! ["users"] = Some e
                /\ staleness e = true
                /\ value e <> JObj [("userId", JStr "u1"); ("role", JStr "ADMIN")]).
Proof.
  cbv zeta. split; [reflexivity|]. split; [discriminate|].
  rewrite cache_mutate. eexists. split; [reflexivity|].
  split; [reflexivity | discriminate].
Qed.

(** C3, amended.  On success the executor returns the value of the service
    for the hooks that return [result.data] or the awaited service value; for
    [useUpdateUserRole], [useUpdateUserStatus], [useApproveUser],
    [useRejectUser], [useApproveBorrow], [useRejectBorrow] and
    [useRemoveAdminPrivileges] it returns a value fixed by the request alone,
    and for [useDeleteBook] the requested ids with the message of the
    service.  Reconciliation writes that value nowhere: every entry keeps its
    value and is stale afterwards when it was stale before or is matched by a
    prefix the hook invalidates. *)
Theorem returned_value_provenance (rules : InvalidationRules) (m : Mutation)
    (r : Reply m) (w : World) (d : JSON) (k : QueryKey) :
  mutationFn m (Fulfilled r) = Returns d ->
  match provenance m with
  | FromService => d = payload m r
  | FromRequest => forall r' d', mutationFn m (Fulfilled r') = Returns d' -> d' = d
  | Mixed =>
      prop d "message" = opt_json (reported m (Fulfilled r))
      /\ forall r' d', mutationFn m (Fulfilled r') = Returns d' ->
                       prop d' "bookIds" = prop d "bookIds"
  end
  /\ forall e', cache (mutate rules m noOptions (Fulfilled r) w) !! k = Some e' ->
       exists e, cache w !! k = Some e
                 /\ value e' = value e
                 /\ staleness e' = staleness e || hit (invalidated rules m) k.
Proof.
  intros E. split.
  - destruct m; simpl in *;
      try (apply checked_returns in E as [_ ->]; reflexivity);
      try (injection E as <-; reflexivity);
      try (apply checked_returns in E as [_ ->];
           intros r' d' E'; apply checked_returns in E' as [_ ->]; reflexivity).
    apply checked_returns in E as [_ ->]. split; [reflexivity|].
    intros r' d' E'. apply checked_returns in E' as [_ ->]. reflexivity.
  - intros e'. rewrite cache_mutate, E.
    destruct (cache w !! k) as [e|]; simpl; [|discriminate].
    intros [= <-]. exists e. split; [reflexivity|].
    destruct (hit (invalidated rules m) k); simpl.
    + by rewrite orb_true_r.
    + by rewrite orb_false_r.
Qed.

Lemma returned_value_provenance_witness :
  mutationFn (useUpdateUserRole "u1" ADMIN None) (Fulfilled roleUpdated)
    = Returns (JObj [("userId", JStr "u1"); ("role", JStr "ADMIN")])
  /\ ((forall r' d', mutationFn (useUpdateUserRole "u1" ADMIN None) (Fulfilled r')
                       = Returns d' ->
                     d' = JObj [("userId", JStr "u1"); ("role", JStr "ADMIN")])
      /\ forall e', cache (mutate documentedRules (useUpdateUserRole "u1" ADMIN None)
                             noOptions (Fulfilled roleUpdated) sampleWorld) !! ["users"]
                    = Some e' ->
           exists e, cache sampleWorld !! ["users"] = Some e
                     /\ value e' = value e
                     /\ staleness e' = staleness e
                          || hit (invalidated documentedRules
                                    (useUpdateUserRole "u1" ADMIN None)) ["users"]).
Proof.
  split; [reflexivity|].
  apply (returned_value_provenance documentedRules (useUpdateUserRole "u1" ADMIN None)
           roleUpdated sampleWorld
           (JObj [("userId", JStr "u1"); ("role", JStr "ADMIN")]) ["users"]).
  reflexivity.
Defined.

(** ** C4: one notification per mutation *)

Lemma or_string_named (x dflt : string) : or_string x dflt = named (Some x) dflt.
Proof. by destruct x. Qed.

Lemma or_else_named (o : option string) (dflt : string) : or_else o dflt = named o dflt.
Proof. destruct o as [x|]; [apply or_string_named | reflexivity]. Qed.

(** The text [onError] shows for an error without a message is the generic
    fallback of the hook. *)
Lemma shown_fallback (m : Mutation) :
  shown m EmptyString = Some (generic_fallback m).
Proof.
  destruct m; unfold shown; simpl;
    change (or_string EmptyString ?d) with d;
    rewrite ?or_else_named, ?or_string_named;
    try reflexivity.
  destruct bookIds as [|b [|b' l]]; reflexivity.
Qed.

Lemma generic_fallback_nonempty (m : Mutation) : generic_fallback m <> EmptyString.
Proof.
  destruct m; try discriminate.
  destruct bookIds as [|b [|b' l]]; discriminate.
Qed.

Lemma checked_throws (field : ActionResult -> option string) (dflt : string)
    (ret : ActionResult -> JSON) (r : ActionResult) (msg : string) :
  checked field dflt ret (Fulfilled r) = Throws msg ->
  success r = false /\ msg = or_else (field r) dflt.
Proof.
  unfold checked. destruct (success r); simpl; [discriminate|].
  intros [= <-]. done.
Qed.

Lemma or_else_present (o : option string) (dflt x : string) :
  o = Some x -> truthy_string x = true -> or_else o dflt = x.
Proof. intros -> H. simpl. by apply or_string_truthy. Qed.

Lemma or_else_absent (o : option string) (dflt : string) :
  o = None \/ o = Some EmptyString -> or_else o dflt = dflt.
Proof. by intros [-> | ->]. Qed.

(** The message thrown by [mutationFn] against what the service reported. *)
Lemma thrown_message (m : Mutation) (s : Settled (Reply m)) (msg : string) :
  mutationFn m s = Throws msg ->
  (forall x, reported m s = Some x -> truthy_string x = true -> msg = x)
  /\ (reported m s = None \/ reported m s = Some EmptyString ->
      match s with
      | Fulfilled _ => generic_failure m = Some msg /\ msg <> EmptyString
      | Rejected _ => msg = EmptyString
      end).
Proof.
  intros E.
  destruct m; destruct s as [r|e]; simpl in E;
    try discriminate E;
    try (injection E as <-; split;
         [ by intros x [= ->] _
         | by intros [H | [= ->]]; [discriminate H | reflexivity] ]);
    apply checked_throws in E as [_ ->];
    (split;
     [ intros x Hx Ht; by apply or_else_present
     | intros H; cbn [reported wraps_action failure_field] in H;
       rewrite (or_else_absent _ _ H); split; [reflexivity | discriminate] ]).
Qed.

(** C4.  Every mutation emits exactly one notification, whether the service
    call succeeds or fails and whether or not the reconciliation in
    [onSuccess] runs to its end: a success notification when it does, a
    failure notification with the message of the error when it throws.  When
    the service call fails, the notification is a failure notification whose
    message is never empty: it is the message of the service whenever the
    service gave a non-empty one, and otherwise the generic text of the hook,
    which names the operation and the entity: the text of [generic_failure]
    when a server action resolved with a failure, that of [generic_fallback]
    when the call was rejected. *)
Theorem notified_exactly_once (rules : InvalidationRules) (m : Mutation)
    (s : Settled (Reply m)) (w : World) :
  exists t,
    notifications (mutate rules m noOptions s w) = notifications w ++ [t]
    /\ (forall d, mutationFn m s = Returns d ->
          match onSuccess rules m d w with
          | Done _ => failure_message t = None
          | Raised e _ => failure_message t = Some e /\ e <> EmptyString
          end)
    /\ forall msg, mutationFn m s = Throws msg ->
         exists desc, failure_message t = Some desc
           /\ desc <> EmptyString
           /\ (forall x, reported m s = Some x -> truthy_string x = true -> desc = x)
           /\ (reported m s = None \/ reported m s = Some EmptyString ->
               generic_text m s = Some desc).
Proof.
  destruct (mutationFn m s) as [d|msg] eqn:E.
  - rewrite mutate_noOptions.
    destruct (settle_returns rules m s d w E)
      as [(t & Ht & Hd & ->) | (e & t & He & Ht & Hr & ->)];
      exists t; (split; [apply notifications_invalidateAll|]);
      (split; [|intros msg [=]]); intros d' [= <-].
    + by rewrite Hd.
    + rewrite Hr. split; [exact Ht|]. intros ->. discriminate He.
  - rewrite (cache_mutate_failure _ _ _ _ _ E).
    destruct (onError_shown m msg w) as (t & desc & -> & Ht & Hs).
    exists t. split.
    { unfold showToast, emit. by rewrite notifications_app. }
    split; [intros d [=]|].
    intros msg' [= <-]. exists desc. split; [exact Ht|].
    destruct (thrown_message m s msg E) as [Hp Ha].
    destruct (truthy_string msg) eqn:Hm.
    + rewrite (shown_truthy m msg Hm) in Hs. injection Hs as <-.
      split; [by destruct msg|]. split; [exact Hp|].
      intros H. specialize (Ha H). destruct s as [r|e]; simpl.
      * by destruct Ha as [-> _].
      * subst msg. discriminate Hm.
    + apply truthy_string_false in Hm. subst msg.
      rewrite shown_fallback in Hs. injection Hs as <-.
      split; [apply generic_fallback_nonempty|]. split.
      { intros x Hx Hxt. specialize (Hp x Hx Hxt). subst x. discriminate Hxt. }
      intros H. specialize (Ha H). destruct s as [r|e]; simpl.
      * by destruct Ha as [_ Hne'].
      * reflexivity.
Qed.

Lemma notified_exactly_once_witness :
  (mutationFn (useApproveBorrow "r1" (Some "Dune") None) (Fulfilled alreadyProcessed)
     = Throws "This request has already been processed"
   /\ exists t,
        notifications (mutate documentedRules (useApproveBorrow "r1" (Some "Dune") None)
                         noOptions (Fulfilled alreadyProcessed) sampleWorld)
        = notifications sampleWorld ++ [t]
        /\ failure_message t = Some "This request has already been processed")
  /\ (mutationFn (useCreateReview "b1" (Some "Dune")) (Rejected EmptyString)
        = Throws EmptyString
      /\ exists t,
           notifications (mutate documentedRules (useCreateReview "b1" (Some "Dune"))
                            noOptions (Rejected EmptyString) sampleWorld)
           = notifications sampleWorld ++ [t]
           /\ failure_message t
              = Some ("Unable to submit review for " +:+ quoted "Dune" +:+
                      ". Please try again.")).
Proof.
  split.
  - split; [reflexivity|].
    destruct (notified_exactly_once documentedRules
                (useApproveBorrow "r1" (Some "Dune") None) (Fulfilled alreadyProcessed)
                sampleWorld) as (t & Hn & _ & Hf).
    exists t. split; [exact Hn|].
    destruct (Hf "This request has already been processed" eq_refl)
      as (desc & Hd & _ & Hx & _).
    rewrite Hd. f_equal.
    apply (Hx "This request has already been processed"); reflexivity.
  - split; [reflexivity|].
    destruct (notified_exactly_once documentedRules
                (useCreateReview "b1" (Some "Dune")) (Rejected EmptyString)
                sampleWorld) as (t & Hn & _ & Hf).
    exists t. split; [exact Hn|].
    destruct (Hf EmptyString eq_refl) as (desc & Hd & _ & _ & Hg).
    rewrite Hd. symmetry. apply Hg. right. reflexivity.
Defined.

(** A payload of [null] makes the [onSuccess] of [useSendDueReminders] throw
    once the invalidations are done: the one notification is the failure
    notification of [onError], with the message of the [TypeError]. *)
Example sendDueReminders_null_payload :
  mutationFn useSendDueReminders (Fulfilled JNull) = Returns JNull
  /\ notifications (mutate documentedRules useSendDueReminders noOptions
                      (Fulfilled JNull) sampleWorld)
     = [toast_error "Reminder Failed"
          "Cannot read properties of null (reading 'results')"].
Proof. split; reflexivity. Qed.

(** ** C5: reconciling twice *)

Lemma stale_if_idemp (b : bool) (e : CacheEntry) :
  stale_if b (stale_if b e) = stale_if b e.
Proof. by destruct b. Qed.

Lemma cache_invalidateAll_idemp (fs : list QueryKey) (w : World) :
  cache (invalidateAll fs (invalidateAll fs w)) = cache (invalidateAll fs w).
Proof.
  apply map_eq. intros k. rewrite !cache_invalidateAll.
  destruct (cache w !! k) as [e|]; simpl; [|done].
  by rewrite stale_if_idemp.
Qed.

Lemma invalidateAfterResourceChange_all (entityName : string) (w : World) :
  invalidateAfterResourceChange entityName w
  = invalidateAll [["dashboard-stats"]; ["all-resources"]; [entityName];
                   [slice_init entityName]] w.
Proof. reflexivity. Qed.

(** C5.  Running a mutation twice with the same outcome leaves the cache as
    running it once does, for the hooks and for the utility of the guide. *)
Theorem reconcile_idempotent (rules : InvalidationRules) (m : Mutation)
    (s : Settled (Reply m)) (entityName : string) (w : World) :
  cache (mutate rules m noOptions s (mutate rules m noOptions s w))
  = cache (mutate rules m noOptions s w)
  /\ cache (invalidateAfterResourceChange entityName
              (invalidateAfterResourceChange entityName w))
     = cache (invalidateAfterResourceChange entityName w).
Proof.
  split.
  - apply map_eq. intros k. rewrite !cache_mutate.
    destruct (mutationFn m s); [|reflexivity].
    destruct (cache w !! k) as [e|]; simpl; [|done].
    by rewrite stale_if_idemp.
  - rewrite !invalidateAfterResourceChange_all. apply cache_invalidateAll_idemp.
Qed.

(** ** C6: the explanation selected by substring *)

(** C6.  A delete rejected because of active borrows shows the message of the
    service as it is; the explanation the handler selects by substring is not
    part of what is shown. *)
Theorem deleteBook_explanation_not_shown :
  notifications (mutate documentedRules (useDeleteBook ["b1"] (Some "Dune")) noOptions
                   (Fulfilled hasActiveBorrows) sampleWorld)
  = [toast_error "Deletion Failed" "Cannot delete books with active borrows"]
  /\ includes "active borrows" "Cannot delete books with active borrows" = true
  /\ includes "Books with active borrows cannot be deleted."
              "Cannot delete books with active borrows" = false.
Proof. repeat split; reflexivity. Qed.

(** Whatever the message, when it contains the substring it is shown alone. *)
Lemma deleteBook_shows_message (bookIds : list string) (bookTitle : option string)
    (msg : string) :
  includes "active borrows" msg = true ->
  shown (useDeleteBook bookIds bookTitle) msg = Some msg.
Proof.
  intros H. apply shown_truthy.
  apply (includes_truthy "active borrows"); [discriminate | exact H].
Qed.

(** ** C10: when the fallback of [onError] is shown *)

Lemma ends_with_cons (suffix s : string) (a : Ascii.ascii) :
  ends_with suffix s -> ends_with suffix (String a s).
Proof. intros [p ->]. by exists (String a p). Qed.

Lemma ends_with_app (suffix s1 s2 : string) :
  ends_with suffix s2 -> ends_with suffix (s1 +:+ s2).
Proof.
  intros H. induction s1 as [|a s1 IH]; [exact H|].
  simpl. by apply ends_with_cons.
Qed.

Lemma ends_with_refl (suffix : string) : ends_with suffix suffix.
Proof. by exists EmptyString. Qed.

Ltac ends_with_tac :=
  repeat first [ apply ends_with_refl | apply ends_with_cons | apply ends_with_app ].

(** C10, counterexample.  [useCreateReview] hands the error of the service on
    as it is: when its message is empty, [mutationFn] throws an [Error] with
    an empty message and the fallback of [onError] is what the user sees. *)
Lemma createReview_empty_message_shows_fallback :
  mutationFn (useCreateReview "b1" None) (Rejected EmptyString) = Throws EmptyString
  /\ notifications (mutate documentedRules (useCreateReview "b1" None) noOptions
                      (Rejected EmptyString) sampleWorld)
     = [toast_error "Review Failed"
          ("Unable to submit review for " +:+ quoted "book" +:+ ". Please try again.")].
Proof. split; reflexivity. Qed.

(** C10, amended.  For the hooks that inspect the result of a server action,
    a result that reports failure makes [mutationFn] throw an [Error] with a
    non-empty message, which [onError] shows in place of its fallback.  The
    other hooks, and every hook when the call itself is rejected, rethrow the
    error unchanged, and the fallback is shown exactly when its message is
    empty.  An explanation selected by substring is never shown: the text
    shown for an empty message ends with the generic request to try again. *)
Theorem fallback_only_for_empty_message (m : Mutation) :
  (forall r : Reply m, wraps_action m = true -> succeeded m r = false ->
     exists msg, mutationFn m (Fulfilled r) = Throws msg
                 /\ truthy_string msg = true /\ shown m msg = Some msg)
  /\ (forall e, mutationFn m (Rejected e) = Throws e)
  /\ (forall msg, shown m msg
                  = if truthy_string msg then Some msg else shown m EmptyString)
  /\ (matches_substrings m = true ->
      exists g, shown m EmptyString = Some g /\ ends_with "Please try again." g).
Proof.
  split; [|split; [|split]].
  - intros r Hw Hs.
    assert (H : exists msg, mutationFn m (Fulfilled r) = Throws msg
                            /\ truthy_string msg = true).
    { destruct m; try discriminate Hw; cbn in r, Hs |- *;
        unfold checked; rewrite Hs; simpl;
        (eexists; split; [reflexivity|]);
        match goal with
        | |- truthy_string (or_else ?o ?d) = true =>
            destruct o as [[|? ?]|]; reflexivity
        end. }
    destruct H as (msg & E & Ht). exists msg. repeat split; try done.
    by apply shown_truthy.
  - intros e. by destruct m.
  - intros msg. destruct (truthy_string msg) eqn:Ht.
    + by apply shown_truthy.
    + by rewrite (truthy_string_false _ Ht).
  - intros Hm. destruct m; try discriminate Hm;
      (eexists; split; [reflexivity|]); ends_with_tac.
Qed.

Lemma fallback_only_for_empty_message_witness :
  wraps_action (useCreateBook "Dune") = true
  /\ succeeded (useCreateBook "Dune") silentFailure = false
  /\ exists msg, mutationFn (useCreateBook "Dune") (Fulfilled silentFailure) = Throws msg
                 /\ truthy_string msg = true
                 /\ shown (useCreateBook "Dune") msg = Some msg.
Proof.
  split; [reflexivity|]. split; [reflexivity|].
  apply (proj1 (fallback_only_for_empty_message (useCreateBook "Dune")) silentFailure);
    reflexivity.
Defined.

(** ** C7 and C8: the read path *)

(** C7.  A fetch that resolves with a timestamp older than the one the entry
    carries changes no entry; in particular a fetch that was pending when a
    later overwrite took place is dropped when it resolves. *)
Theorem late_refetch_is_dropped (fp : QueryKey) (v v1 : JSON) (fetchedAt now : Z)
    (st : ReadCache.Store) (e : CacheEntry) :
  (ReadCache.entries st !! fp = Some e -> fetchedAt < lastFetchedAt e ->
   ReadCache.entries (ReadCache.resolve fp v fetchedAt st) = ReadCache.entries st)
  /\ (fetchedAt < now ->
      ReadCache.entries (ReadCache.resolve fp v fetchedAt (ReadCache.set fp v1 now st))
      = ReadCache.entries (ReadCache.set fp v1 now st)).
Proof.
  split.
  - intros He Hlt. unfold ReadCache.resolve. simpl. rewrite He.
    by rewrite (proj2 (Z.ltb_lt _ _) Hlt).
  - intros Hlt. unfold ReadCache.resolve, ReadCache.set. simpl.
    rewrite lookup_insert_eq. simpl.
    by rewrite (proj2 (Z.ltb_lt _ _) Hlt).
Qed.

Lemma late_refetch_is_dropped_witness :
  ReadCache.entries pendingStore !! ["books"]
    = Some {| value := cachedBooks; staleness := false; lastFetchedAt := 10 |}
  /\ 5 < 10
  /\ ReadCache.entries (ReadCache.resolve ["books"] JNull 5 pendingStore)
     = ReadCache.entries pendingStore
  /\ 5 < 20
  /\ ReadCache.entries (ReadCache.resolve ["books"] JNull 5
                          (ReadCache.set ["books"] freshBook 20 pendingStore))
     = ReadCache.entries (ReadCache.set ["books"] freshBook 20 pendingStore).
Proof.
  pose proof (late_refetch_is_dropped ["books"] JNull freshBook 5 20 pendingStore
                {| value := cachedBooks; staleness := false; lastFetchedAt := 10 |})
    as [H1 H2].
  split; [reflexivity|]. split; [lia|].
  split; [apply H1; [reflexivity | simpl; lia]|].
  split; [lia|]. apply H2. lia.
Defined.

(** A fetch that is not older than the entry replaces it. *)
Lemma timely_refetch_replaces (fp : QueryKey) (v : JSON) (fetchedAt : Z)
    (st : ReadCache.Store) (e : CacheEntry) :
  ReadCache.entries st !! fp = Some e -> lastFetchedAt e <= fetchedAt ->
  ReadCache.entries (ReadCache.resolve fp v fetchedAt st) !! fp
  = Some {| value := v; staleness := false; lastFetchedAt := fetchedAt |}.
Proof.
  intros He Hle. unfold ReadCache.resolve. simpl. rewrite He.
  rewrite (proj2 (Z.ltb_ge _ _) Hle). apply lookup_insert_eq.
Qed.

(** Readers that find the fetch pending leave the store as it is. *)
Lemma reads_pending (n : nat) (fp : QueryKey) (st : ReadCache.Store) (e : CacheEntry) :
  ReadCache.entries st !! fp = Some e -> fp ∈ ReadCache.inflight st ->
  ReadCache.reads n fp st = (replicate n (Some (value e)), st).
Proof.
  intros He Hin. induction n as [|n IH]; [reflexivity|].
  simpl. unfold ReadCache.read at 1. rewrite He.
  assert (Ht : ReadCache.trigger fp st = st).
  { unfold ReadCache.trigger. by rewrite bool_decide_eq_true_2. }
  rewrite Ht. destruct (staleness e); by rewrite IH.
Qed.

(** C8.  [n >= 1] readers of a stale entry, none of whose fetches is pending
    when the first arrives, all get the last known value at once, and between
    them the fetcher is invoked exactly once: the first reader starts the
    fetch and the others find it pending. *)
Theorem concurrent_reads_share_one_fetch (n : nat) (fp : QueryKey)
    (st : ReadCache.Store) (e : CacheEntry) :
  ReadCache.entries st !! fp = Some e -> staleness e = true ->
  fp ∉ ReadCache.inflight st -> (1 <= n)%nat ->
  (ReadCache.reads n fp st).1 = replicate n (Some (value e))
  /\ ReadCache.fetches (ReadCache.reads n fp st).2 = ReadCache.fetches st ++ [fp]
  /\ ReadCache.entries (ReadCache.reads n fp st).2 = ReadCache.entries st
  /\ fp ∈ ReadCache.inflight (ReadCache.reads n fp st).2.
Proof.
  intros He Hs Hnot Hn. destruct n as [|n]; [lia|].
  assert (Hr : ReadCache.reads (S n) fp st
               = (replicate (S n) (Some (value e)),
                  {| ReadCache.entries := ReadCache.entries st;
                     ReadCache.inflight := {[fp]} ∪ ReadCache.inflight st;
                     ReadCache.fetches := ReadCache.fetches st ++ [fp] |})).
  { simpl. unfold ReadCache.read. rewrite He, Hs.
    unfold ReadCache.trigger. rewrite bool_decide_eq_false_2 by exact Hnot.
    rewrite (reads_pending n fp _ e); [reflexivity | exact He | simpl; set_solver]. }
  rewrite Hr. simpl. repeat split. set_solver.
Qed.

Lemma concurrent_reads_share_one_fetch_witness :
  ReadCache.entries staleStore !! ["books"]
    = Some {| value := cachedBooks; staleness := true; lastFetchedAt := 10 |}
  /\ (["books"] ∉ ReadCache.inflight staleStore)
  /\ (1 <= 3)%nat
  /\ (ReadCache.reads 3 ["books"] staleStore).1
     = [Some cachedBooks; Some cachedBooks; Some cachedBooks]
  /\ ReadCache.fetches (ReadCache.reads 3 ["books"] staleStore).2 = [["books"]].
Proof.
  split; [reflexivity|]. split; [set_solver|]. split; [lia|].
  destruct (concurrent_reads_share_one_fetch 3 ["books"] staleStore
              {| value := cachedBooks; staleness := true; lastFetchedAt := 10 |})
    as (Hv & Hf & _ & _).
  - reflexivity.
  - reflexivity.
  - set_solver.
  - lia.
  - split; [exact Hv | exact Hf].
Defined.

(** ** C9: the order of reconciliation, navigation, notification and clearing *)

Lemma preceded_by_prefix (a : Effect) (Q : Effect -> bool) (l1 l2 : list Effect) :
  a ∈ l1 -> (forall y, y ∈ l1 -> Q y = false) -> preceded_by a Q (l1 ++ l2).
Proof.
  intros Ha Hno j y Hj Hq.
  destruct (decide (j < length l1)%nat) as [Hlt|Hge].
  - rewrite lookup_app_l in Hj by exact Hlt.
    apply list_elem_of_lookup_2 in Hj. rewrite (Hno y Hj) in Hq. discriminate Hq.
  - apply list_elem_of_lookup_1 in Ha as [i Hi]. exists i.
    pose proof (lookup_lt_Some _ _ _ Hi) as Hlen. split; [lia|].
    by rewrite lookup_app_l.
Qed.

Lemma not_push_Invalidate (fs : list QueryKey) (y : Effect) :
  y ∈ map Invalidate fs -> is_push y = false.
Proof. intros Hy. apply list_elem_of_fmap in Hy as (f & -> & _). reflexivity. Qed.

(** The trace of a successful borrow, for both copies of the component. *)
Lemma borrow_trace (rules : InvalidationRules) (userId bookId : string)
    (r : ActionResult) (w : World) :
  timers w = [] -> success r = true ->
  let added := map Invalidate (afterBorrowChange rules)
               ++ [Notify (book_borrowSuccess "Book"); RouterPush "/my-profile"] in
  effects (run_timers (BorrowBook.handleBorrowBook rules true userId bookId
                         (Fulfilled r) w)) = effects w ++ added
  /\ effects (run_timers (BorrowBookDirect.handleBorrowBook rules true userId bookId
                            (Fulfilled r) w)) = effects w ++ added
  /\ cache (run_timers (BorrowBook.handleBorrowBook rules true userId bookId
                          (Fulfilled r) w))
     = cache (invalidateAfterBorrowChange rules w)
  /\ cache (run_timers (BorrowBookDirect.handleBorrowBook rules true userId bookId
                          (Fulfilled r) w))
     = cache (invalidateAfterBorrowChange rules w).
Proof.
  intros Hq Hs. cbv zeta.
  unfold BorrowBook.handleBorrowBook, BorrowBookDirect.handleBorrowBook, mutate, settle.
  cbn [negb mutationFn]. unfold checked. rewrite Hs.
  cbn [negb callSuccess BorrowBook.options BorrowBookDirect.options onSuccess].
  unfold invalidateAfterBorrowChange, run_timers, setTimeout, router_push, showToast, emit.
  cbn [cache effects timers]. rewrite !timers_invalidateAll, Hq.
  cbn. rewrite !effects_invalidateAll, <- !app_assoc. done.
Qed.

(** C9.  When a borrow succeeds, every invalidation made by the hook is in
    the trace before the navigation to the profile page, and the cache the
    navigation finds is the reconciled one; when the user logs out, the
    logout notification is in the trace before the cache is cleared.  The
    delays of the timers play no part. *)
Theorem reconcile_before_navigate_and_notify_before_clear (rules : InvalidationRules)
    (userId bookId : string) (r : ActionResult) (signedOut : Settled unit) (w : World) :
  timers w = [] -> success r = true ->
  (forall w',
     w' = run_timers (BorrowBook.handleBorrowBook rules true userId bookId (Fulfilled r) w)
     \/ w' = run_timers (BorrowBookDirect.handleBorrowBook rules true userId bookId
                           (Fulfilled r) w) ->
     exists added, effects w' = effects w ++ added
       /\ RouterPush "/my-profile" ∈ added
       /\ (forall f, f ∈ afterBorrowChange rules ->
             preceded_by (Invalidate f) is_push added)
       /\ cache w' = cache (invalidateAfterBorrowChange rules w))
  /\ (forall w',
        w' = run_timers (LogoutButton.handleLogout rules false signedOut w).2
        \/ w' = run_timers (ProfileDropdown.handleLogout false signedOut w).2 ->
        exists added, effects w' = effects w ++ added
          /\ preceded_by (Notify auth_logoutSuccess) is_clear added
          /\ (forall u, signedOut = Fulfilled u -> ClearCache ∈ added)).
Proof.
  intros Hq Hs. split.
  - intros w' Hw'.
    destruct (borrow_trace rules userId bookId r w Hq Hs) as (E1 & E2 & C1 & C2).
    exists (map Invalidate (afterBorrowChange rules)
            ++ [Notify (book_borrowSuccess "Book"); RouterPush "/my-profile"]).
    assert (Hw : effects w' = effects w
                   ++ map Invalidate (afterBorrowChange rules)
                   ++ [Notify (book_borrowSuccess "Book"); RouterPush "/my-profile"]
                 /\ cache w' = cache (invalidateAfterBorrowChange rules w)).
    { destruct Hw' as [Hw' | Hw']; rewrite Hw'; done. }
    destruct Hw as [He Hc].
    split; [exact He|].
    split; [rewrite elem_of_app, !elem_of_cons; auto|].
    split; [|exact Hc].
    intros f Hf. apply preceded_by_prefix.
    + by apply list_elem_of_fmap_2.
    + apply not_push_Invalidate.
  - intros w' Hw'. destruct Hw' as [-> | ->].
    + exists ([Notify auth_logoutSuccess]
              ++ map Invalidate (allQueries rules)
              ++ [ClearCache; SignOut "/sign-in"]
              ++ match signedOut with
                 | Fulfilled _ => []
                 | Rejected _ =>
                     [ConsoleError "Logout error:";
                      Notify (toast_error "Logout Failed"
                                "There was an error logging out. Please try again.")]
                 end).
      split; [|split].
      * unfold LogoutButton.handleLogout, invalidateAllQueries, run_timers, logoutFailed,
          signOut, clear, showToast, emit, with_cache.
        destruct signedOut; cbn [snd cache effects timers];
          rewrite !timers_invalidateAll; cbn [cache effects timers]; rewrite Hq;
          cbn; rewrite !effects_invalidateAll; cbn; rewrite <- !app_assoc; reflexivity.
      * apply preceded_by_prefix; [set_solver|].
        intros y Hy. apply list_elem_of_singleton in Hy. by subst y.
      * intros u _. set_solver.
    + exists ([Notify auth_logoutSuccess]
              ++ [SetCookie "logout-in-progress=true; path=/; max-age=10; SameSite=Lax";
                  SignOut "/sign-in"]
              ++ match signedOut with
                 | Fulfilled _ => [ClearCache]
                 | Rejected _ =>
                     [ConsoleError "Logout error:";
                      Notify (toast_error "Logout Failed"
                                "There was an error logging out. Please try again.")]
                 end).
      split; [|split].
      * unfold ProfileDropdown.handleLogout, run_timers, logoutFailed, setTimeout,
          signOut, clear, showToast, emit, with_cache.
        destruct signedOut; cbn [snd cache effects timers]; rewrite Hq;
          cbn; rewrite <- ?app_assoc; reflexivity.
      * apply preceded_by_prefix; [set_solver|].
        intros y Hy. apply list_elem_of_singleton in Hy. by subst y.
      * intros u ->. set_solver.
Qed.

Lemma reconcile_before_navigate_and_notify_before_clear_witness :
  timers sampleWorld = [] /\ success borrowRequested = true
  /\ (exists added,
        effects (run_timers (BorrowBook.handleBorrowBook documentedRules true "u1" "b1"
                               (Fulfilled borrowRequested) sampleWorld))
        = effects sampleWorld ++ added
        /\ RouterPush "/my-profile" ∈ added
        /\ (forall f, f ∈ afterBorrowChange documentedRules ->
              preceded_by (Invalidate f) is_push added)
        /\ cache (run_timers (BorrowBook.handleBorrowBook documentedRules true "u1" "b1"
                                (Fulfilled borrowRequested) sampleWorld))
           = cache (invalidateAfterBorrowChange documentedRules sampleWorld))
  /\ (exists added,
        effects (run_timers (ProfileDropdown.handleLogout false (Fulfilled ())
                               sampleWorld).2)
        = effects sampleWorld ++ added
        /\ preceded_by (Notify auth_logoutSuccess) is_clear added
        /\ ClearCache ∈ added).
Proof.
  split; [reflexivity|]. split; [reflexivity|].
  destruct (reconcile_before_navigate_and_notify_before_clear documentedRules "u1" "b1"
              borrowRequested (Fulfilled ()) sampleWorld eq_refl eq_refl) as [Hb Hl].
  split.
  - apply Hb. by left.
  - destruct (Hl _ (or_intror eq_refl)) as (added & He & Hp & Hc).
    exists added. split; [exact He|]. split; [exact Hp|]. by apply (Hc ()).
Defined.

(** * Further properties of the hooks and of the components around them *)

(** ** The hooks as operations on the cache *)

Lemma stale_if_comm (a b : bool) (e : CacheEntry) :
  stale_if a (stale_if b e) = stale_if b (stale_if a e).
Proof. by destruct a, b. Qed.

(** X1.  Whatever its outcome, a mutation neither adds nor removes a cache
    entry, and an entry that was stale before it is found unchanged after it:
    no mutation makes a stale entry fresh. *)
Theorem mutation_keeps_keys_and_stale_entries (rules : InvalidationRules)
    (m : Mutation) (s : Settled (Reply m)) (w : World) :
  dom (cache (mutate rules m noOptions s w)) = dom (cache w)
  /\ forall k e, cache w !! k = Some e -> staleness e = true ->
       cache (mutate rules m noOptions s w) !! k = Some e.
Proof.
  split.
  - apply set_eq. intros k. rewrite !elem_of_dom, cache_mutate.
    destruct (mutationFn m s); [|done].
    by rewrite fmap_is_Some.
  - intros k e He Hs. rewrite cache_mutate, He.
    destruct (mutationFn m s); [|done].
    simpl. f_equal. destruct e as [v st t]. simpl in Hs. subst st.
    by destruct (hit (invalidated rules m) k).
Qed.

Lemma mutation_keeps_keys_and_stale_entries_witness :
  cache (invalidateQueries ["books"] sampleWorld) !! ["books"]
    = Some {| value := cachedBooks; staleness := true; lastFetchedAt := 10 |}
  /\ cache (mutate documentedRules (useUpdateUserRole "u1" ADMIN None) noOptions
              (Fulfilled roleUpdated) (invalidateQueries ["books"] sampleWorld))
       !! ["books"]
     = Some {| value := cachedBooks; staleness := true; lastFetchedAt := 10 |}.
Proof.
  assert (H : cache (invalidateQueries ["books"] sampleWorld) !! ["books"]
              = Some {| value := cachedBooks; staleness := true; lastFetchedAt := 10 |}).
  { simpl. rewrite lookup_markStale. reflexivity. }
  split; [exact H|].
  apply (proj2 (mutation_keeps_keys_and_stale_entries documentedRules
                  (useUpdateUserRole "u1" ADMIN None) (Fulfilled roleUpdated)
                  (invalidateQueries ["books"] sampleWorld))
           ["books"] _ H).
  reflexivity.
Defined.

(** X2.  Two mutations leave the same cache whichever of them settles first. *)
Theorem mutations_commute_on_cache (rules : InvalidationRules)
    (m1 m2 : Mutation) (s1 : Settled (Reply m1)) (s2 : Settled (Reply m2)) (w : World) :
  cache (mutate rules m2 noOptions s2 (mutate rules m1 noOptions s1 w))
  = cache (mutate rules m1 noOptions s1 (mutate rules m2 noOptions s2 w)).
Proof.
  apply map_eq. intros k. rewrite !cache_mutate.
  destruct (mutationFn m1 s1), (mutationFn m2 s2); try reflexivity.
  destruct (cache w !! k) as [e|]; simpl; [|done].
  by rewrite stale_if_comm.
Qed.

(** X3.  [useApproveUser] and [useRejectUser] are [useUpdateUserStatus] at
    the status APPROVED and REJECTED as far as the returned value and the
    cache go: they return a value exactly when it does, the same one, and
    leave the same cache. *)
Theorem approve_reject_wrap_updateUserStatus (rules : InvalidationRules)
    (userId : string) (userName : option string) (s : Settled ActionResult)
    (w : World) (d : JSON) :
  (mutationFn (useApproveUser userId userName) s = Returns d
   <-> mutationFn (useUpdateUserStatus userId APPROVED userName) s = Returns d)
  /\ (mutationFn (useRejectUser userId userName) s = Returns d
      <-> mutationFn (useUpdateUserStatus userId REJECTED userName) s = Returns d)
  /\ cache (mutate rules (useApproveUser userId userName) noOptions s w)
     = cache (mutate rules (useUpdateUserStatus userId APPROVED userName) noOptions s w)
  /\ cache (mutate rules (useRejectUser userId userName) noOptions s w)
     = cache (mutate rules (useUpdateUserStatus userId REJECTED userName) noOptions s w).
Proof.
  repeat split;
    try (apply map_eq; intros k; rewrite !cache_mutate);
    destruct s as [r|e]; cbn [mutationFn]; unfold checked;
    try destruct (success r); simpl; try done; intros [=].
Qed.

Lemma approve_reject_wrap_updateUserStatus_witness :
  mutationFn (useUpdateUserStatus "u1" APPROVED None) (Fulfilled roleUpdated)
  = Returns (JObj [("userId", JStr "u1"); ("status", JStr "APPROVED")])
  /\ mutationFn (useApproveUser "u1" None) (Fulfilled roleUpdated)
     = Returns (JObj [("userId", JStr "u1"); ("status", JStr "APPROVED")]).
Proof.
  assert (H : mutationFn (useUpdateUserStatus "u1" APPROVED None) (Fulfilled roleUpdated)
              = Returns (JObj [("userId", JStr "u1"); ("status", JStr "APPROVED")]))
    by reflexivity.
  split; [exact H|].
  exact (proj2 (proj1 (approve_reject_wrap_updateUserStatus documentedRules "u1" None
                         (Fulfilled roleUpdated) sampleWorld
                         (JObj [("userId", JStr "u1"); ("status", JStr "APPROVED")])))
           H).
Defined.

Lemma pretty_Z_of_nat (n : nat) : pretty (Z.of_nat n) = pretty n.
Proof. by destruct n. Qed.

Lemma is_num_of_nat (n : nat) : is_num (JNum (Z.of_nat n)) 1 = (n =? 1)%nat.
Proof.
  simpl. destruct (Nat.eqb_spec n 1) as [->|Hn]; [reflexivity|].
  apply Z.eqb_neq. lia.
Qed.

(** X4.  The toast of a successful delete reports the number of ids that
    were requested: the title, or "Book", for a single id, and the count
    for any other number of ids, none included, whatever title was passed. *)
Theorem deleteBook_toast_counts_requested_ids (rules : InvalidationRules)
    (bookIds : list string) (bookTitle : option string) (r : ActionResult) (w : World) :
  success r = true ->
  notifications (mutate rules (useDeleteBook bookIds bookTitle) noOptions (Fulfilled r) w)
  = notifications w
    ++ [toast_success "Book(s) Deleted"
          ("Successfully deleted "
           +:+ (if (length bookIds =? 1)%nat
                then quoted (or_else bookTitle "Book")
                else pretty (length bookIds) +:+ " books")
           +:+ ".")].
Proof.
  intros Hs. unfold mutate, settle. cbn [mutationFn]. unfold checked. rewrite Hs.
  cbn [negb onSuccess get get_length length_of prop assoc String.eqb Ascii.eqb Bool.eqb
       default from_option id reading callSuccess noOptions].
  unfold invalidateAfterBookChange. rewrite notifications_invalidateAll.
  rewrite length_map, is_num_of_nat. cbn [template]. rewrite pretty_Z_of_nat.
  destruct (length bookIds =? 1)%nat; reflexivity.
Qed.

Lemma deleteBook_toast_counts_requested_ids_witness :
  success noBooksDeleted = true
  /\ notifications (mutate documentedRules (useDeleteBook [] (Some "Dune")) noOptions
                      (Fulfilled noBooksDeleted) sampleWorld)
     = [toast_success "Book(s) Deleted" "Successfully deleted 0 books."].
Proof.
  split; [reflexivity|].
  apply (deleteBook_toast_counts_requested_ids documentedRules [] (Some "Dune")
           noBooksDeleted sampleWorld).
  reflexivity.
Defined.

(** ** Borrowing from a book page *)

(** X5.  A borrow that fails navigates nowhere: both copies of the component
    add the failure notification and a console error to the trace, leave the
    cache as it was and set no timer; a click while borrowing is not allowed
    does nothing at all. *)
Theorem failed_borrow_stays_on_page (rules : InvalidationRules) (userId bookId : string)
    (s : Settled ActionResult) (msg : string) (w : World) :
  mutationFn (useBorrowBook userId bookId None) s = Throws msg ->
  (forall w',
     w' = BorrowBook.handleBorrowBook rules true userId bookId s w
     \/ w' = BorrowBookDirect.handleBorrowBook rules true userId bookId s w ->
     effects w'
     = effects w
       ++ [Notify (book_borrowError
                     (or_string msg
                        ("Unable to request " +:+ quoted "book" +:+ ". Please try again.")));
           ConsoleError "[BorrowBook] Mutation error:"]
     /\ cache w' = cache w /\ timers w' = timers w)
  /\ BorrowBook.handleBorrowBook rules false userId bookId s w = w
  /\ BorrowBookDirect.handleBorrowBook rules false userId bookId s w = w.
Proof.
  intros E. split; [|split; reflexivity].
  intros w' [-> | ->];
    unfold BorrowBook.handleBorrowBook, BorrowBookDirect.handleBorrowBook, mutate, settle;
    cbn [negb]; rewrite E; cbn; rewrite <- app_assoc; done.
Qed.

Lemma failed_borrow_stays_on_page_witness :
  mutationFn (useBorrowBook "u1" "b1" None) (Fulfilled borrowRefused)
    = Throws "Book is not available"
  /\ effects (BorrowBook.handleBorrowBook documentedRules true "u1" "b1"
                (Fulfilled borrowRefused) sampleWorld)
     = [Notify (book_borrowError "Book is not available");
        ConsoleError "[BorrowBook] Mutation error:"].
Proof.
  split; [reflexivity|].
  apply (proj1 (failed_borrow_stays_on_page documentedRules "u1" "b1"
                  (Fulfilled borrowRefused) "Book is not available" sampleWorld
                  eq_refl) _ (or_introl eq_refl)).
Defined.

Lemma find_some_elem {A : Type} (f : A -> bool) (l : list A) (x : A) :
  List.find f l = Some x -> x ∈ l /\ f x = true.
Proof.
  intros H. apply List.find_some in H as [Hin Hf].
  split; [by apply list_elem_of_In | exact Hf].
Qed.

Lemma find_none_elem {A : Type} (f : A -> bool) (l : list A) (x : A) :
  List.find f l = None -> x ∈ l -> f x = false.
Proof.
  intros H Hin. apply (List.find_none f l H). by apply list_elem_of_In.
Qed.

Lemma eqb_true (a b : string) : String.eqb a b = true -> a = b.
Proof. apply String.eqb_eq. Qed.

(** X6.  Borrowing is allowed only when the book has a copy left and is
    active, the user is approved and none of the loaded borrows of the user
    is a borrowed or pending record of this book; and when such a record is
    loaded, a click on the borrow button changes nothing. *)
Theorem eligible_only_without_open_borrow (rules : InvalidationRules)
    (userBorrows : option (list BookBorrowButton.Borrow)) (book user : string)
    (availableCopies : Z) (isActive : bool) (userStatus : option string)
    (s : Settled ActionResult) (w : World) :
  (BookBorrowButton.isEligible userBorrows book availableCopies isActive userStatus = true ->
   0 < availableCopies /\ isActive = true /\ userStatus = Some "APPROVED"
   /\ forall l b, userBorrows = Some l -> b ∈ l -> BookBorrowButton.bookId b = book ->
        BookBorrowButton.status b <> "BORROWED" /\ BookBorrowButton.status b <> "PENDING")
  /\ (forall l b, userBorrows = Some l -> b ∈ l -> BookBorrowButton.bookId b = book ->
        BookBorrowButton.status b = "BORROWED" \/ BookBorrowButton.status b = "PENDING" ->
        BorrowBook.handleBorrowBook rules
          (BookBorrowButton.isEligible userBorrows book availableCopies isActive userStatus)
          user book s w = w).
Proof.
  assert (Hopen : forall l b, userBorrows = Some l -> b ∈ l ->
            BookBorrowButton.bookId b = book ->
            BookBorrowButton.status b = "BORROWED" \/ BookBorrowButton.status b = "PENDING" ->
            BookBorrowButton.hasExistingBorrow userBorrows book = true).
  { intros l b -> Hb Hk Hst.
    unfold BookBorrowButton.hasExistingBorrow, BookBorrowButton.existingBorrow. simpl.
    apply bool_decide_eq_true_2.
    destruct (List.find _ l) as [b'|] eqn:F; [by eexists|].
    pose proof (find_none_elem _ _ b F Hb) as Hf. simpl in Hf.
    rewrite Hk, String.eqb_refl in Hf.
    destruct Hst as [Hst | Hst]; rewrite Hst in Hf; discriminate Hf. }
  split.
  - unfold BookBorrowButton.isEligible. intros H.
    apply andb_true_iff in H as [H Hex]. apply andb_true_iff in H as [H Hact].
    apply andb_true_iff in H as [Hcop Happ].
    split; [by apply Z.ltb_lt|]. split; [exact Hact|]. split.
    { destruct userStatus as [u|]; [|discriminate Happ].
      simpl in Happ. by rewrite (eqb_true _ _ Happ). }
    intros l b Hl Hb Hk. apply negb_true_iff in Hex.
    split; intros Hst;
      rewrite (Hopen l b Hl Hb Hk) in Hex; try discriminate Hex; auto.
  - intros l b Hl Hb Hk Hst.
    unfold BookBorrowButton.isEligible. rewrite (Hopen l b Hl Hb Hk Hst).
    cbn [negb]. rewrite andb_false_r. reflexivity.
Qed.

Lemma eligible_only_without_open_borrow_witness :
  BookBorrowButton.isEligible (Some []) "b1" 2 true (Some "APPROVED") = true
  /\ 0 < 2
  /\ BorrowBook.handleBorrowBook documentedRules
       (BookBorrowButton.isEligible (Some pendingBorrows) "b1" 2 true (Some "APPROVED"))
       "u1" "b1" (Fulfilled borrowRequested) sampleWorld = sampleWorld.
Proof.
  split; [reflexivity|]. split.
  - apply (proj1 (eligible_only_without_open_borrow documentedRules (Some []) "b1" "u1"
                    2 true (Some "APPROVED") (Fulfilled borrowRequested) sampleWorld)).
    reflexivity.
  - apply (proj2 (eligible_only_without_open_borrow documentedRules (Some pendingBorrows)
                    "b1" "u1" 2 true (Some "APPROVED") (Fulfilled borrowRequested)
                    sampleWorld) pendingBorrows
             {| BookBorrowButton.id := "r1"; BookBorrowButton.bookId := "b1";
                BookBorrowButton.status := "PENDING"; BookBorrowButton.dueDate := None |}).
    + reflexivity.
    + apply elem_of_cons. right. apply elem_of_cons. by left.
    + reflexivity.
    + by right.
Defined.

(** X7.  Until the borrows of the user are loaded the component knows of no
    open borrow: for an approved user and an active book with a copy left, a
    click on the borrow button issues the borrow request, whatever requests
    the user may already have. *)
Theorem unloaded_borrows_do_not_block (rules : InvalidationRules) (book user : string)
    (availableCopies : Z) (isActive : bool) (userStatus : option string)
    (s : Settled ActionResult) (w : World) :
  0 < availableCopies -> isActive = true -> userStatus = Some "APPROVED" ->
  BorrowBook.handleBorrowBook rules
    (BookBorrowButton.isEligible None book availableCopies isActive userStatus)
    user book s w
  = mutate rules (useBorrowBook user book None) BorrowBook.options s w.
Proof.
  intros Hc -> ->. unfold BorrowBook.handleBorrowBook, BookBorrowButton.isEligible.
  rewrite (proj2 (Z.ltb_lt _ _) Hc). reflexivity.
Qed.

Lemma unloaded_borrows_do_not_block_witness :
  0 < 2
  /\ effects (BorrowBook.handleBorrowBook documentedRules
                (BookBorrowButton.isEligible None "b1" 2 true (Some "APPROVED"))
                "u1" "b1" (Fulfilled borrowRefused) sampleWorld)
     = [Notify (book_borrowError "Book is not available");
        ConsoleError "[BorrowBook] Mutation error:"].
Proof.
  split; [lia|].
  rewrite (unloaded_borrows_do_not_block documentedRules "b1" "u1" 2 true
             (Some "APPROVED") (Fulfilled borrowRefused) sampleWorld);
    [reflexivity | lia | reflexivity | reflexivity].
Defined.

(** X8.  The return button is rendered only for a loaded record of this book
    whose status is BORROWED, and it is given the id of that record; when
    the borrow button is rendered instead and borrowing is refused with the
    generic text, the reason is that the user is not approved. *)
Theorem rendered_button_matches_record
    (userBorrows : option (list BookBorrowButton.Borrow)) (book user bookTitle : string)
    (availableCopies : Z) (isActive : bool) (userStatus : option string) :
  (forall recordId title due,
     BookBorrowButton.render userBorrows book user bookTitle availableCopies isActive
       userStatus = BookBorrowButton.ReturnBookButton recordId title due ->
     title = bookTitle
     /\ exists l b, userBorrows = Some l /\ b ∈ l
          /\ BookBorrowButton.id b = recordId
          /\ BookBorrowButton.bookId b = book
          /\ BookBorrowButton.status b = "BORROWED")
  /\ (forall bk us,
        BookBorrowButton.render userBorrows book user bookTitle availableCopies isActive
          userStatus
        = BookBorrowButton.BorrowBookButton bk us false
            "You are not eligible to borrow this book" ->
        BookBorrowButton.approved userStatus = false).
Proof.
  split.
  - intros recordId title due. unfold BookBorrowButton.render.
    destruct (BookBorrowButton.existingBorrow userBorrows book) as [b|] eqn:E;
      [|discriminate].
    destruct (String.eqb (BookBorrowButton.status b) "BORROWED") eqn:Hst; [|discriminate].
    intros [= <- <- _]. split; [reflexivity|].
    unfold BookBorrowButton.existingBorrow in E.
    destruct userBorrows as [l|]; [|discriminate E]. simpl in E.
    apply find_some_elem in E as [Hin Hf].
    apply andb_true_iff in Hf as [Hk _].
    exists l, b. repeat split; try done; by apply eqb_true.
  - intros bk us.
    assert (H : BookBorrowButton.isEligible userBorrows book availableCopies isActive
                  userStatus = false ->
                BookBorrowButton.eligibilityMessage userBorrows book availableCopies
                  isActive = "You are not eligible to borrow this book" ->
                BookBorrowButton.approved userStatus = false).
    { unfold BookBorrowButton.isEligible, BookBorrowButton.eligibilityMessage.
      destruct (BookBorrowButton.hasExistingBorrow userBorrows book); [discriminate|].
      destruct isActive; [|discriminate]. simpl.
      destruct (availableCopies <=? 0) eqn:Hc; [discriminate|].
      apply Z.leb_gt in Hc. rewrite (proj2 (Z.ltb_lt _ _) Hc). simpl.
      rewrite !andb_true_r. by intros ->. }
    unfold BookBorrowButton.render.
    destruct (BookBorrowButton.existingBorrow userBorrows book) as [b|];
      [destruct (String.eqb (BookBorrowButton.status b) "BORROWED"); [discriminate|]|];
      intros [= _ _ He Hm]; by apply H.
Qed.

Lemma rendered_button_matches_record_witness :
  BookBorrowButton.render (Some borrowedBooks) "b1" "u1" "Dune" 2 true (Some "APPROVED")
  = BookBorrowButton.ReturnBookButton "r7" "Dune" (Some "2025-01-15")
  /\ exists l b, Some borrowedBooks = Some l /\ b ∈ l
       /\ BookBorrowButton.id b = "r7"
       /\ BookBorrowButton.bookId b = "b1"
       /\ BookBorrowButton.status b = "BORROWED".
Proof.
  assert (H : BookBorrowButton.render (Some borrowedBooks) "b1" "u1" "Dune" 2 true
                (Some "APPROVED")
              = BookBorrowButton.ReturnBookButton "r7" "Dune" (Some "2025-01-15"))
    by reflexivity.
  split; [exact H|].
  exact (proj2 (proj1 (rendered_button_matches_record (Some borrowedBooks) "b1" "u1"
                         "Dune" 2 true (Some "APPROVED")) "r7" "Dune"
                  (Some "2025-01-15") H)).
Defined.

(** ** Saving the daily fine *)

(** X9.  Saving a negative amount does nothing.  When the update of the fine
    configuration fails, the update of the overdue fines is never issued:
    the cache is untouched, exactly one notification is added, a failure,
    and the editor stays as it was. *)
Theorem failed_config_update_stops_the_chain (rules : InvalidationRules)
    (st : FineManagement.State) (s1 s2 : Settled JSON) (msg : string) (w : World) :
  (FineManagement.editableAmount st < 0 ->
   FineManagement.handleSaveAmount rules st s1 s2 w = (st, w))
  /\ (0 <= FineManagement.editableAmount st ->
      mutationFn (useUpdateFineConfig (FineManagement.editableAmount st) (Some "admin")) s1
        = Throws msg ->
      (FineManagement.handleSaveAmount rules st s1 s2 w).1 = st
      /\ cache (FineManagement.handleSaveAmount rules st s1 s2 w).2 = cache w
      /\ notifications (FineManagement.handleSaveAmount rules st s1 s2 w).2
         = notifications w
           ++ [toast_error "Update Failed"
                 (or_string msg
                    "Unable to update fine configuration. Please try again.")]).
Proof.
  split.
  - intros H. unfold FineManagement.handleSaveAmount.
    by rewrite (proj2 (Z.ltb_lt _ _) H).
  - intros H E. unfold FineManagement.handleSaveAmount.
    rewrite (proj2 (Z.ltb_ge _ _) H). cbv zeta.
    rewrite (mutate_throws _ _ _ _ _ _ E), (settle_throws _ _ _ _ _ E).
    repeat split.
    cbn [FineManagement.options callError onError snd].
    unfold showToast, emit. rewrite notifications_app. cbn [omap]. simpl omap.
    do 3 f_equal. destruct msg as [|a msg']; [reflexivity|].
    reflexivity.
Qed.

Lemma failed_config_update_stops_the_chain_witness :
  0 <= 2
  /\ mutationFn (useUpdateFineConfig 2 (Some "admin"))
       (Rejected "Fine amount must be a positive number")
     = Throws "Fine amount must be a positive number"
  /\ notifications (FineManagement.handleSaveAmount documentedRules
                      {| FineManagement.editableAmount := 2;
                         FineManagement.isEditing := true |}
                      (Rejected "Fine amount must be a positive number")
                      (Fulfilled (JObj [("results", JArr [])])) sampleWorld).2
     = [toast_error "Update Failed" "Fine amount must be a positive number"].
Proof.
  split; [lia|]. split; [reflexivity|].
  apply (proj2 (failed_config_update_stops_the_chain documentedRules
                  {| FineManagement.editableAmount := 2;
                     FineManagement.isEditing := true |}
                  (Rejected "Fine amount must be a positive number")
                  (Fulfilled (JObj [("results", JArr [])]))
                  "Fine amount must be a positive number" sampleWorld)).
  - simpl. lia.
  - reflexivity.
Defined.

(** X10.  When the update of the fine configuration succeeds the overdue
    fines are updated with the same amount.  The cache is then the one a
    single invalidation of the admin and borrow prefixes gives, however the
    second update ends.  The editor closes exactly when the second update
    settles as succeeded, that is when its service call is fulfilled with a
    payload other than [null] and [undefined].  For a payload of [null] or
    [undefined] the read of [data.results] throws in the [onSuccess] of the
    hook: the editor stays as it was, and the success notification of the
    first update is followed by a failure notification that carries the
    message of the [TypeError]. *)
Theorem saved_fine_updates_overdue_fines (rules : InvalidationRules)
    (st : FineManagement.State) (s1 s2 : Settled JSON) (d : JSON) (w : World) :
  0 <= FineManagement.editableAmount st ->
  mutationFn (useUpdateFineConfig (FineManagement.editableAmount st) (Some "admin")) s1
    = Returns d ->
  let configUpdated :=
    toast_success "Fine Configuration Updated"
      ("Daily fine amount has been updated to $"
       +:+ toFixed2 (FineManagement.editableAmount st) +:+ " per day.") in
  (FineManagement.handleSaveAmount rules st s1 s2 w).2
  = mutate rules (useUpdateOverdueFines (Some (FineManagement.editableAmount st)))
      noOptions s2
      (showToast configUpdated
         (invalidateAll (afterAdminChange rules ++ afterBorrowChange rules) w))
  /\ cache (FineManagement.handleSaveAmount rules st s1 s2 w).2
     = cache (invalidateAll (afterAdminChange rules ++ afterBorrowChange rules) w)
  /\ FineManagement.isEditing (FineManagement.handleSaveAmount rules st s1 s2 w).1
     = match s2 with
       | Fulfilled JUndefined | Fulfilled JNull | Rejected _ => FineManagement.isEditing st
       | Fulfilled _ => false
       end
  /\ (forall p, s2 = Fulfilled p -> p = JUndefined \/ p = JNull ->
      notifications (FineManagement.handleSaveAmount rules st s1 s2 w).2
      = notifications w
        ++ [configUpdated; toast_error "Update Failed" (cannot_read p "results")]).
Proof.
  intros H E. cbv zeta.
  set (second := useUpdateOverdueFines (Some (FineManagement.editableAmount st))).
  set (w1 := showToast _ (invalidateAll (afterAdminChange rules ++ afterBorrowChange rules) w)).
  assert (H1 : onSuccess rules
                 (useUpdateFineConfig (FineManagement.editableAmount st) (Some "admin")) d w
               = Done w1).
  { cbn [onSuccess]. unfold invalidateAfterAdminChange, invalidateAfterBorrowChange.
    subst w1. by rewrite invalidateAll_app. }
  assert (Hw : (FineManagement.handleSaveAmount rules st s1 s2 w).2
               = mutate rules second noOptions s2 w1).
  { unfold FineManagement.handleSaveAmount.
    rewrite (proj2 (Z.ltb_ge _ _) H). cbv zeta.
    rewrite (mutate_returns _ _ _ _ _ _ _ E H1).
    unfold settle at 1. rewrite E, H1.
    cbn [callSuccess FineManagement.options]. fold second.
    by destruct (settle rules second s2 w1) as [[d2|e2] w2]. }
  assert (He : FineManagement.isEditing
                 (FineManagement.handleSaveAmount rules st s1 s2 w).1
               = match settle rules second s2 w1 with
                 | (Succeeded _, _) => false
                 | (Failed _, _) => FineManagement.isEditing st
                 end).
  { unfold FineManagement.handleSaveAmount.
    rewrite (proj2 (Z.ltb_ge _ _) H). cbv zeta.
    unfold settle at 1. rewrite E, H1. fold second.
    by destruct (settle rules second s2 w1) as [[d2|e2] w2]. }
  split; [exact Hw|]. split; [|split].
  - rewrite Hw. apply map_eq. intros k.
    rewrite cache_mutate. subst w1. cbn [showToast emit cache].
    rewrite !cache_invalidateAll.
    destruct (mutationFn second s2); [|reflexivity].
    destruct (cache w !! k) as [e|]; simpl; [|done].
    by rewrite stale_if_idemp.
  - rewrite He. destruct s2 as [p|e]; [|reflexivity].
    unfold settle. cbn [mutationFn second awaited onSuccess].
    by destruct p.
  - intros p -> Hp. rewrite Hw.
    assert (Hr : onSuccess rules second p w1
                 = Raised (cannot_read p "results")
                     (invalidateAll (afterAdminChange rules ++ afterBorrowChange rules) w1)).
    { cbn [onSuccess second]. unfold invalidateAfterAdminChange, invalidateAfterBorrowChange.
      rewrite invalidateAll_app. by destruct Hp as [-> | ->]. }
    rewrite (mutate_raises _ second _ (Fulfilled p) p _ _ _ eq_refl Hr).
    cbn [callError noOptions onError second].
    assert (Ht : or_string (cannot_read p "results")
                   "Unable to update overdue fines. Please try again."
                 = cannot_read p "results") by (by destruct Hp as [-> | ->]).
    rewrite Ht, notifications_invalidateAll.
    subst w1. rewrite notifications_invalidateAll. by rewrite <- app_assoc.
Qed.

Lemma saved_fine_updates_overdue_fines_witness :
  0 <= 2
  /\ mutationFn (useUpdateFineConfig 2 (Some "admin")) (Fulfilled (JObj [("fineAmount", JNum 2)]))
     = Returns (JObj [("fineAmount", JNum 2)])
  /\ notifications (FineManagement.handleSaveAmount documentedRules
                      {| FineManagement.editableAmount := 2;
                         FineManagement.isEditing := true |}
                      (Fulfilled (JObj [("fineAmount", JNum 2)]))
                      (Fulfilled (JObj [("results", JArr [JNull])])) sampleWorld).2
     = [toast_success "Fine Configuration Updated"
          "Daily fine amount has been updated to $2.00 per day.";
        toast_success "Overdue Fines Updated"
          "Successfully updated fines for 1 overdue book."]
  /\ notifications (FineManagement.handleSaveAmount documentedRules
                      {| FineManagement.editableAmount := 2;
                         FineManagement.isEditing := true |}
                      (Fulfilled (JObj [("fineAmount", JNum 2)]))
                      (Fulfilled JNull) sampleWorld).2
     = [toast_success "Fine Configuration Updated"
          "Daily fine amount has been updated to $2.00 per day.";
        toast_error "Update Failed" "Cannot read properties of null (reading 'results')"]
  /\ FineManagement.isEditing
       (FineManagement.handleSaveAmount documentedRules
          {| FineManagement.editableAmount := 2; FineManagement.isEditing := true |}
          (Fulfilled (JObj [("fineAmount", JNum 2)])) (Fulfilled JNull) sampleWorld).1
     = true.
Proof.
  split; [lia|]. split; [reflexivity|].
  split; [|split].
  - rewrite (proj1 (saved_fine_updates_overdue_fines documentedRules
                      {| FineManagement.editableAmount := 2;
                         FineManagement.isEditing := true |}
                      (Fulfilled (JObj [("fineAmount", JNum 2)]))
                      (Fulfilled (JObj [("results", JArr [JNull])]))
                      (JObj [("fineAmount", JNum 2)]) sampleWorld
                      ltac:(simpl; lia) eq_refl)).
    reflexivity.
  - apply (proj2 (proj2 (proj2 (saved_fine_updates_overdue_fines documentedRules
                      {| FineManagement.editableAmount := 2;
                         FineManagement.isEditing := true |}
                      (Fulfilled (JObj [("fineAmount", JNum 2)]))
                      (Fulfilled JNull)
                      (JObj [("fineAmount", JNum 2)]) sampleWorld
                      ltac:(simpl; lia) eq_refl))) JNull eq_refl).
    by right.
  - apply (proj1 (proj2 (proj2 (saved_fine_updates_overdue_fines documentedRules
                      {| FineManagement.editableAmount := 2;
                         FineManagement.isEditing := true |}
                      (Fulfilled (JObj [("fineAmount", JNum 2)]))
                      (Fulfilled JNull)
                      (JObj [("fineAmount", JNum 2)]) sampleWorld
                      ltac:(simpl; lia) eq_refl)))).
Defined.

(** ** Logging out *)

(** X11.  A second click while a logout is running does nothing.  The logout
    button empties the cache whether or not signing out succeeds, while the
    profile menu empties it only once signing out has succeeded and leaves it
    as it was when signing out fails; after a failure both handlers allow a
    new attempt. *)
Theorem logout_clears_cache_when (rules : InvalidationRules) (signedOut : Settled unit)
    (w : World) :
  timers w = [] ->
  LogoutButton.handleLogout rules true signedOut w = (true, w)
  /\ ProfileDropdown.handleLogout true signedOut w = (true, w)
  /\ cache (LogoutButton.handleLogout rules false signedOut w).2 = ∅
  /\ cache (run_timers (ProfileDropdown.handleLogout false signedOut w).2)
     = match signedOut with
       | Fulfilled _ => ∅
       | Rejected _ => cache w
       end
  /\ (LogoutButton.handleLogout rules false signedOut w).1
     = match signedOut with Fulfilled _ => true | Rejected _ => false end
  /\ (ProfileDropdown.handleLogout false signedOut w).1
     = match signedOut with Fulfilled _ => true | Rejected _ => false end.
Proof.
  intros Hq. split; [reflexivity|]. split; [reflexivity|].
  split; [by destruct signedOut|].
  split; [|split; by destruct signedOut].
  unfold ProfileDropdown.handleLogout, run_timers.
  destruct signedOut; cbn; rewrite Hq; reflexivity.
Qed.

Lemma logout_clears_cache_when_witness :
  timers sampleWorld = []
  /\ cache (LogoutButton.handleLogout documentedRules false (Rejected "network")
              sampleWorld).2 = ∅
  /\ cache (run_timers (ProfileDropdown.handleLogout false (Rejected "network")
                          sampleWorld).2) = sampleCache.
Proof.
  split; [reflexivity|].
  destruct (logout_clears_cache_when documentedRules (Rejected "network") sampleWorld
              eq_refl) as (_ & _ & H1 & H2 & _).
  split; [exact H1 | exact H2].
Defined.

(** ** The admin lists *)

Lemma or_else_or_opt_None (o : option string) (d : string) :
  or_else (or_opt o None) d = or_else o d.
Proof. by destruct o as [[|a s]|]. Qed.

Lemma notifications_mutate_success (rules : InvalidationRules) (m : Mutation)
    (s : Settled (Reply m)) (d : JSON) (w : World) (t : Toast) :
  mutationFn m s = Returns d ->
  onSuccess rules m d w = Done (showToast t (invalidateAll (invalidated rules m) w)) ->
  notifications (mutate rules m noOptions s w) = notifications w ++ [t].
Proof.
  intros E H. rewrite (mutate_returns _ _ _ _ _ _ _ E H).
  apply notifications_invalidateAll.
Qed.

(** X12.  The toast of an approved or rejected borrow request names the user
    and the book of the request found in the list under the record id; a
    name that is missing, null or empty, or a record id that is not in the
    list, gives "User" and "Book". *)
Theorem request_toast_names_the_request (rules : InvalidationRules)
    (requests : list AdminBookRequestsList.Request) (recordId : string)
    (r : ActionResult) (w : World) :
  success r = true ->
  let request := AdminBookRequestsList.findRequest requests recordId in
  let user := or_else (request ≫= AdminBookRequestsList.userName) "User" in
  let book := or_else (request ≫= AdminBookRequestsList.bookTitle) "Book" in
  notifications (AdminBookRequestsList.handleApproveBorrow rules requests recordId
                   (Fulfilled r) w)
  = notifications w
    ++ [toast_success "Borrow Request Approved"
          (user +:+ " can now borrow " +:+ quoted book +:+ ".")]
  /\ notifications (AdminBookRequestsList.handleRejectBorrow rules requests recordId
                      (Fulfilled r) w)
     = notifications w
       ++ [toast_success "Borrow Request Rejected"
             ("Borrow request for " +:+ quoted book +:+ " by " +:+ user +:+
              " has been rejected.")]
  /\ ((forall q, q ∈ requests -> AdminBookRequestsList.id q <> recordId) ->
      user = "User" /\ book = "Book").
Proof.
  intros Hs. cbv zeta. split; [|split].
  - unfold AdminBookRequestsList.handleApproveBorrow. cbv zeta.
    apply (notifications_mutate_success _ _ _ (JObj [("recordId", JStr recordId)])).
    + cbn [mutationFn]. unfold checked. by rewrite Hs.
    + cbn [onSuccess invalidated]. unfold invalidateAfterBorrowChange,
        AdminBookRequestsList.field_or_undefined.
      by rewrite !or_else_or_opt_None.
  - unfold AdminBookRequestsList.handleRejectBorrow. cbv zeta.
    apply (notifications_mutate_success _ _ _ (JObj [("recordId", JStr recordId)])).
    + cbn [mutationFn]. unfold checked. by rewrite Hs.
    + cbn [onSuccess invalidated]. unfold invalidateAfterBorrowChange,
        AdminBookRequestsList.field_or_undefined.
      by rewrite !or_else_or_opt_None.
  - intros Hno. unfold AdminBookRequestsList.findRequest.
    destruct (List.find _ requests) as [q|] eqn:F; [|done].
    apply find_some_elem in F as [Hin Hf]. apply eqb_true in Hf.
    by destruct (Hno q Hin).
Qed.

Lemma request_toast_names_the_request_witness :
  success requestApproved = true
  /\ notifications (AdminBookRequestsList.handleApproveBorrow documentedRules
                      sampleRequests "r1" (Fulfilled requestApproved) sampleWorld)
     = [toast_success "Borrow Request Approved"
          ("Ana can now borrow " +:+ quoted "Dune" +:+ ".")]
  /\ notifications (AdminBookRequestsList.handleApproveBorrow documentedRules
                      sampleRequests "r2" (Fulfilled requestApproved) sampleWorld)
     = [toast_success "Borrow Request Approved"
          ("User can now borrow " +:+ quoted "Book" +:+ ".")].
Proof.
  split; [reflexivity|]. split.
  - apply (proj1 (request_toast_names_the_request documentedRules sampleRequests "r1"
                    requestApproved sampleWorld eq_refl)).
  - apply (proj1 (request_toast_names_the_request documentedRules sampleRequests "r2"
                    requestApproved sampleWorld eq_refl)).
Defined.

(** X13.  Without the id of the signed-in admin the three admin handlers do
    nothing.  The button that removes admin rights is never offered on the
    row of the current user when that user is known, and never together
    with the button that grants them. *)
Theorem admin_actions_need_an_admin (rules : InvalidationRules)
    (users : list AdminUsersList.User) (adminRequests : list AdminUsersList.AdminRequest)
    (adminId : option string) (targetId : string) (s : Settled ActionResult) (w : World)
    (user : AdminUsersList.User) (currentUserId sessionUserId : option string) :
  (adminId = None \/ adminId = Some EmptyString ->
   AdminUsersList.handleApproveAdminRequest rules adminRequests adminId targetId s w = w
   /\ AdminUsersList.handleRejectAdminRequest rules adminRequests adminId targetId s w = w
   /\ AdminUsersList.handleRemoveAdminPrivileges rules users adminId targetId s w = w)
  /\ (or_opt currentUserId sessionUserId = Some (AdminUsersList.id user) ->
      AdminUsersList.showsRemoveAdmin user currentUserId sessionUserId = false)
  /\ (AdminUsersList.showsRemoveAdmin user currentUserId sessionUserId = true ->
      AdminUsersList.showsMakeAdmin user = false).
Proof.
  split; [|split].
  - by intros [-> | ->].
  - intros H. unfold AdminUsersList.showsRemoveAdmin. rewrite H. simpl.
    rewrite String.eqb_refl. apply andb_false_r.
  - unfold AdminUsersList.showsRemoveAdmin, AdminUsersList.showsMakeAdmin.
    intros H. apply andb_true_iff in H as [H _]. apply eqb_true in H. by rewrite H.
Qed.

Lemma admin_actions_need_an_admin_witness :
  or_opt (Some "u9") None = Some "u9"
  /\ AdminUsersList.showsRemoveAdmin
       {| AdminUsersList.id := "u9"; AdminUsersList.fullName := "Root";
          AdminUsersList.role := "ADMIN"; AdminUsersList.status := "APPROVED" |}
       (Some "u9") None = false
  /\ AdminUsersList.handleRemoveAdminPrivileges documentedRules [] None "u1"
       (Fulfilled requestApproved) sampleWorld = sampleWorld.
Proof.
  pose proof (admin_actions_need_an_admin documentedRules [] [] None "u1"
                (Fulfilled requestApproved) sampleWorld
                {| AdminUsersList.id := "u9"; AdminUsersList.fullName := "Root";
                   AdminUsersList.role := "ADMIN"; AdminUsersList.status := "APPROVED" |}
                (Some "u9") None) as (H1 & H2 & _).
  split; [reflexivity|]. split.
  - apply H2. reflexivity.
  - apply H1. by left.
Defined.

(** ** Overdue days *)

Lemma day_ms_pos : 0 < day_ms.
Proof. reflexivity. Qed.

Lemma floor_bounds (a : Z) : a / day_ms * day_ms <= a < (a / day_ms + 1) * day_ms.
Proof.
  pose proof day_ms_pos as HD.
  pose proof (Z.div_mod a day_ms ltac:(lia)) as Hdm.
  pose proof (Z.mod_pos_bound a day_ms HD) as Hm.
  lia.
Qed.

Lemma date_difference (t d : Z) :
  (BorrowCard.dateOnlyUTC t - BorrowCard.dateOnlyUTC d) / day_ms = t / day_ms - d / day_ms.
Proof.
  unfold BorrowCard.dateOnlyUTC.
  replace (t / day_ms * day_ms - d / day_ms * day_ms)
    with ((t / day_ms - d / day_ms) * day_ms) by lia.
  apply Z.div_mul. pose proof day_ms_pos. lia.
Qed.

(** X14.  The return button counts whole periods of 24 hours since the due
    time: for a book past its due time the count [n] is the one with
    [n] days <= lateness < [n + 1] days, so that a book late by less than a
    day is labelled as 0 days overdue; a book without a due date, or not yet
    past it, carries the plain label. *)
Theorem return_label_counts_full_days (dueDate : option Z) (today : Z) :
  (forall due, dueDate = Some due -> due < today ->
     let n := ReturnBookButton.daysOverdue dueDate today in
     0 <= n
     /\ n * day_ms <= today - due < (n + 1) * day_ms
     /\ ReturnBookButton.label false dueDate today
        = "Return Book (" +:+ pretty n +:+ " days overdue)")
  /\ (dueDate = None \/ (exists due, dueDate = Some due /\ today <= due) ->
      ReturnBookButton.daysOverdue dueDate today = 0
      /\ ReturnBookButton.label false dueDate today = "Return Book").
Proof.
  split.
  - intros due -> Hlt. cbv zeta.
    unfold ReturnBookButton.label, ReturnBookButton.isOverdue, ReturnBookButton.daysOverdue.
    rewrite (proj2 (Z.ltb_lt _ _) Hlt). cbn [negb].
    pose proof (floor_bounds (today - due)) as Hb.
    split; [|split; [exact Hb | reflexivity]].
    apply Z.div_pos; [lia | apply day_ms_pos].
  - intros [-> | (due & -> & Hle)]; [done|].
    unfold ReturnBookButton.label, ReturnBookButton.isOverdue, ReturnBookButton.daysOverdue.
    by rewrite (proj2 (Z.ltb_ge _ _) Hle).
Qed.

Lemma return_label_counts_full_days_witness :
  1000 < 1000 + 3600000
  /\ ReturnBookButton.label false (Some 1000) (1000 + 3600000)
     = "Return Book (0 days overdue)".
Proof.
  split; [lia|].
  destruct (proj1 (return_label_counts_full_days (Some 1000) (1000 + 3600000)) 1000
              eq_refl ltac:(lia)) as (_ & _ & H).
  rewrite H. reflexivity.
Defined.

(** X15.  On a card a borrowed book with a due date is either overdue, when
    the due time is before the shifted clock, or has days remaining, never
    both.  The days overdue are the difference of the two UTC calendar days,
    which is 0 for a book that became due earlier the same day; the days
    remaining [r] are the least with due time <= clock + [r] days.  For any
    other status, or without a due date, all three are off. *)
Theorem card_overdue_or_remaining (status : string) (due today tzOffset : Z) :
  let now := BorrowCard.todayUTC today tzOffset in
  let over := BorrowCard.daysOverdue status (Some due) today tzOffset in
  let left := BorrowCard.daysRemaining status (Some due) today tzOffset in
  (status = "BORROWED" -> due < now ->
   BorrowCard.isOverdue status (Some due) today tzOffset = true
   /\ left = 0 /\ 0 <= over /\ over = now / day_ms - due / day_ms)
  /\ (status = "BORROWED" -> now <= due ->
      BorrowCard.isOverdue status (Some due) today tzOffset = false
      /\ over = 0 /\ 0 <= left
      /\ (left - 1) * day_ms < due - now <= left * day_ms)
  /\ (status <> "BORROWED" ->
      BorrowCard.isOverdue status (Some due) today tzOffset = false
      /\ over = 0 /\ left = 0)
  /\ BorrowCard.daysOverdue status None today tzOffset = 0
  /\ BorrowCard.daysRemaining status None today tzOffset = 0.
Proof.
  cbv zeta. pose proof day_ms_pos as HD.
  unfold BorrowCard.daysOverdue, BorrowCard.daysRemaining, BorrowCard.isOverdue.
  split; [|split; [|split; [|split; reflexivity]]].
  - intros -> Hlt. rewrite (proj2 (Z.ltb_lt _ _) Hlt). cbn.
    split; [reflexivity|]. split; [reflexivity|].
    rewrite date_difference. split; [|reflexivity].
    assert (due / day_ms <= BorrowCard.todayUTC today tzOffset / day_ms);
      [apply Z.div_le_mono; lia | lia].
  - intros -> Hle. rewrite (proj2 (Z.ltb_ge _ _) Hle). cbn.
    split; [reflexivity|]. split; [reflexivity|].
    unfold BorrowCard.ceil_days.
    pose proof (floor_bounds (- (due - BorrowCard.todayUTC today tzOffset))) as Hb.
    assert (- (due - BorrowCard.todayUTC today tzOffset) / day_ms <= 0).
    { apply Z.div_le_upper_bound; lia. }
    lia.
  - intros Hne. apply String.eqb_neq in Hne. rewrite Hne. by cbn.
Qed.

Lemma card_overdue_or_remaining_witness :
  BorrowCard.todayUTC (86400000 + 3600000) 0 <= 3 * 86400000
  /\ BorrowCard.daysRemaining "BORROWED" (Some (3 * 86400000)) (86400000 + 3600000) 0 = 2
  /\ 86400000 - 1000 < BorrowCard.todayUTC (86400000 + 3600000) 0
  /\ BorrowCard.daysOverdue "BORROWED" (Some (86400000 - 1000)) (86400000 + 3600000) 0 = 1.
Proof.
  split; [unfold BorrowCard.todayUTC; lia|]. split; [reflexivity|].
  split; [unfold BorrowCard.todayUTC; lia|].
  destruct (proj1 (card_overdue_or_remaining "BORROWED" (86400000 - 1000)
                     (86400000 + 3600000) 0) eq_refl
              ltac:(unfold BorrowCard.todayUTC; lia)) as (_ & _ & _ & H).
  rewrite H. reflexivity.
Defined.

(** X16.  With the clock in UTC the card and the return button disagree by
    at most one day on an overdue book: the card counts calendar days, the
    button periods of 24 hours, and the card shows the count of the button
    or one more. *)
Theorem card_and_button_differ_by_a_day (due today : Z) :
  due < today ->
  let card := BorrowCard.daysOverdue "BORROWED" (Some due) today 0 in
  let button := ReturnBookButton.daysOverdue (Some due) today in
  card = button \/ card = button + 1.
Proof.
  intros Hlt. cbv zeta.
  unfold BorrowCard.daysOverdue, BorrowCard.isOverdue, BorrowCard.todayUTC,
    ReturnBookButton.daysOverdue.
  replace (today + 0 * 60000) with today by lia.
  rewrite (proj2 (Z.ltb_lt _ _) Hlt). cbn [String.eqb Ascii.eqb Bool.eqb andb].
  rewrite date_difference.
  pose proof (floor_bounds today) as Ht.
  pose proof (floor_bounds due) as Hd.
  pose proof (floor_bounds (today - due)) as Hb.
  pose proof day_ms_pos as HD.
  assert (H1 : today / day_ms - due / day_ms - 1 < (today - due) / day_ms + 1) by nia.
  assert (H2 : (today - due) / day_ms < today / day_ms - due / day_ms + 1) by nia.
  lia.
Qed.

Lemma card_and_button_differ_by_a_day_witness :
  86400000 - 1000 < 86400000 + 1000
  /\ (BorrowCard.daysOverdue "BORROWED" (Some (86400000 - 1000)) (86400000 + 1000) 0
      = ReturnBookButton.daysOverdue (Some (86400000 - 1000)) (86400000 + 1000)
      \/ BorrowCard.daysOverdue "BORROWED" (Some (86400000 - 1000)) (86400000 + 1000) 0
         = ReturnBookButton.daysOverdue (Some (86400000 - 1000)) (86400000 + 1000) + 1).
Proof.
  split; [lia|].
  apply (card_and_button_differ_by_a_day (86400000 - 1000) (86400000 + 1000)).
  lia.
Defined.

Example card_counts_a_day_the_button_does_not :
  BorrowCard.daysOverdue "BORROWED" (Some (86400000 - 1000)) (86400000 + 1000) 0 = 1
  /\ ReturnBookButton.daysOverdue (Some (86400000 - 1000)) (86400000 + 1000) = 0.
Proof. split; reflexivity. Qed.

Lemma remaining_within_two_days (due now : Z) :
  now <= due ->
  (BorrowCard.ceil_days (due - now) <=? 2) = (due - now <=? 2 * day_ms).
Proof.
  intros Hle. unfold BorrowCard.ceil_days.
  pose proof (floor_bounds (- (due - now))) as Hb. pose proof day_ms_pos as HD.
  destruct (due - now <=? 2 * day_ms) eqn:E.
  - apply Z.leb_le in E. apply Z.leb_le. nia.
  - apply Z.leb_gt in E. apply Z.leb_gt. nia.
Qed.

(** X17.  A borrowed book with a due date is shown as overdue, with the red
    border and the OVERDUE line, exactly when its due time is before the
    shifted clock; otherwise it is shown as due soon, with the orange border
    and the Due Soon line, exactly when it is due within 48 hours, and with
    the blue border and its due date beyond that. *)
Theorem card_flags_follow_the_clock (due today tzOffset : Z) (formatted : string) :
  let now := BorrowCard.todayUTC today tzOffset in
  BorrowCard.borderClass "BORROWED" (Some due) today tzOffset
  = (if due <? now then "border-red-600 bg-red-900/10"
     else if due - now <=? 2 * day_ms then "border-orange-400 bg-orange-900/10"
     else "border-blue-500 bg-blue-900/10")
  /\ BorrowCard.dueLine "BORROWED" (Some due) today tzOffset formatted
     = Some (if due <? now
             then "OVERDUE! "
                  +:+ pretty (BorrowCard.daysOverdue "BORROWED" (Some due) today tzOffset)
                  +:+ " days late"
             else if due - now <=? 2 * day_ms
             then "Due Soon! "
                  +:+ pretty (BorrowCard.daysRemaining "BORROWED" (Some due) today tzOffset)
                  +:+ " day"
                  +:+ (if BorrowCard.daysRemaining "BORROWED" (Some due) today tzOffset =? 1
                       then EmptyString else "s")
                  +:+ " left"
             else "Due on " +:+ formatted).
Proof.
  cbv zeta.
  unfold BorrowCard.borderClass, BorrowCard.dueLine, BorrowCard.isOverdue.
  cbn [String.eqb Ascii.eqb Bool.eqb andb].
  destruct (due <? BorrowCard.todayUTC today tzOffset) eqn:E.
  - split; reflexivity.
  - apply Z.ltb_ge in E.
    assert (Hr : BorrowCard.daysRemaining "BORROWED" (Some due) today tzOffset
                 = BorrowCard.ceil_days (due - BorrowCard.todayUTC today tzOffset)).
    { unfold BorrowCard.daysRemaining, BorrowCard.isOverdue.
      by rewrite (proj2 (Z.ltb_ge _ _) E). }
    rewrite !Hr, (remaining_within_two_days _ _ E).
    cbn [negb andb]. rewrite andb_true_r.
    split; reflexivity.
Qed.

Example due_now_is_due_soon :
  BorrowCard.dueLine "BORROWED" (Some 1000) 1000 0 "Jan 1, 1970"
  = Some "Due Soon! 0 days left".
Proof. reflexivity. Qed.

(** ** The tabs of the profile page and their statistics *)

Lemma statFine_counts (today tzOffset : Z) (r : MyProfileTabs.BorrowRecord) :
  MyProfileTabs.countsAsFined today tzOffset r
  = (0 <? MyProfileTabs.statFine today tzOffset r).
Proof.
  unfold MyProfileTabs.countsAsFined, MyProfileTabs.statFine.
  destruct (MyProfileTabs.dueDate r) as [due|]; [|reflexivity].
  destruct (BorrowCard.isOverdue _ _ _ _); [|reflexivity].
  by rewrite Z.mul_1_r.
Qed.

Lemma statFine_nonneg (today tzOffset : Z) (r : MyProfileTabs.BorrowRecord) :
  0 <= MyProfileTabs.fineAmount r -> 0 <= MyProfileTabs.statFine today tzOffset r.
Proof.
  intros Hf. unfold MyProfileTabs.statFine.
  destruct (MyProfileTabs.dueDate r) as [due|] eqn:Hd; [|exact Hf].
  destruct (BorrowCard.isOverdue _ _ _ _) eqn:Ho; [|exact Hf].
  unfold BorrowCard.isOverdue in Ho. apply andb_true_iff in Ho as [_ Ho].
  apply Z.ltb_lt in Ho. rewrite date_difference, Z.mul_1_r.
  pose proof day_ms_pos.
  assert (due / day_ms <= BorrowCard.todayUTC today tzOffset / day_ms);
    [apply Z.div_le_mono; lia | lia].
Qed.

Lemma totalFines_from (today tzOffset acc : Z) (l : list MyProfileTabs.BorrowRecord) :
  foldl (fun sum r => sum + MyProfileTabs.statFine today tzOffset r) acc l
  = acc + MyProfileTabs.totalFines today tzOffset l.
Proof.
  unfold MyProfileTabs.totalFines. revert acc.
  induction l as [|r l IH]; intros acc; simpl; [lia|].
  rewrite (IH (acc + _)), (IH (0 + _)). lia.
Qed.

(** X18.  When no stored fine is negative, the total of the fines in the
    statistics is not negative, and it is zero exactly when no record is
    counted as having a fine. *)
Theorem total_fines_zero_iff_none_fined (today tzOffset : Z)
    (history : list MyProfileTabs.BorrowRecord) :
  (forall r, r ∈ history -> 0 <= MyProfileTabs.fineAmount r) ->
  0 <= MyProfileTabs.totalFines today tzOffset history
  /\ (MyProfileTabs.totalFines today tzOffset history = 0
      <-> MyProfileTabs.withFines today tzOffset history = 0%nat).
Proof.
  unfold MyProfileTabs.withFines.
  induction history as [|r l IH]; intros Hf; [done|].
  assert (Hr : 0 <= MyProfileTabs.statFine today tzOffset r).
  { apply statFine_nonneg, Hf. by left. }
  destruct IH as [IH0 IHz]; [intros q Hq; apply Hf; by right|].
  unfold MyProfileTabs.totalFines in *. cbn [foldl].
  rewrite totalFines_from. unfold MyProfileTabs.totalFines.
  cbn [List.filter]. rewrite statFine_counts.
  split; [lia|].
  destruct (0 <? MyProfileTabs.statFine today tzOffset r) eqn:E.
  - apply Z.ltb_lt in E. cbn [length]. split; [lia | discriminate].
  - apply Z.ltb_ge in E. rewrite <- IHz. lia.
Qed.

Lemma total_fines_zero_iff_none_fined_witness :
  (forall r, r ∈ sampleHistory -> 0 <= MyProfileTabs.fineAmount r)
  /\ 0 <= MyProfileTabs.totalFines (3 * 86400000) 0 sampleHistory
  /\ MyProfileTabs.totalFines (3 * 86400000) 0 sampleHistory = 3
  /\ MyProfileTabs.withFines (3 * 86400000) 0 sampleHistory = 1%nat.
Proof.
  assert (H : forall r, r ∈ sampleHistory -> 0 <= MyProfileTabs.fineAmount r).
  { intros r Hr. unfold sampleHistory in Hr. rewrite !elem_of_cons in Hr.
    destruct Hr as [-> | [-> | [-> | Hr]]]; simpl; try lia.
    by apply elem_of_nil in Hr. }
  split; [exact H|].
  split; [apply (total_fines_zero_iff_none_fined (3 * 86400000) 0 sampleHistory H)|].
  split; reflexivity.
Defined.

(** X19.  The fine badge of a card agrees with the statistics, in whether a
    fine shows and in its amount, for every record that is not overdue or has
    no positive stored fine.  For an overdue record with a positive stored
    fine the card shows the stored fine, the statistics count the calculated
    one. *)
Theorem card_fine_agrees_with_statistics (today tzOffset : Z)
    (r : MyProfileTabs.BorrowRecord) :
  let over := BorrowCard.isOverdue (MyProfileTabs.status r) (MyProfileTabs.dueDate r)
                today tzOffset in
  let caption := if over then "overdue fine" else "fine" in
  (over = false \/ MyProfileTabs.fineAmount r <= 0 ->
   BorrowCard.fineBadge (MyProfileTabs.status r) (MyProfileTabs.dueDate r)
     (MyProfileTabs.fineAmount r) today tzOffset
   = if MyProfileTabs.countsAsFined today tzOffset r
     then Some (toFixed2 (MyProfileTabs.statFine today tzOffset r), caption)
     else None)
  /\ (over = true -> 0 < MyProfileTabs.fineAmount r ->
      BorrowCard.fineBadge (MyProfileTabs.status r) (MyProfileTabs.dueDate r)
        (MyProfileTabs.fineAmount r) today tzOffset
      = Some (toFixed2 (MyProfileTabs.fineAmount r), "overdue fine")
      /\ MyProfileTabs.statFine today tzOffset r
         = BorrowCard.daysOverdue (MyProfileTabs.status r) (MyProfileTabs.dueDate r)
             today tzOffset).
Proof.
  cbv zeta. rewrite statFine_counts.
  unfold BorrowCard.fineBadge, BorrowCard.calculatedFine, MyProfileTabs.statFine,
    BorrowCard.daysOverdue.
  destruct r as [i st [due|] fine ren]; cbn [MyProfileTabs.status MyProfileTabs.dueDate
                                             MyProfileTabs.fineAmount].
  - destruct (BorrowCard.isOverdue st (Some due) today tzOffset) eqn:Ho.
    + split.
      * intros [H | H]; [discriminate H|].
        rewrite (proj2 (Z.ltb_ge _ _) H). cbn [orb]. reflexivity.
      * intros _ H. rewrite (proj2 (Z.ltb_lt _ _) H). cbn [orb].
        split; [reflexivity | apply Z.mul_1_r].
    + split; [|discriminate]. intros _.
      cbn [orb]. rewrite orb_false_r. by destruct (0 <? fine).
  - assert (Ho : BorrowCard.isOverdue st None today tzOffset = false).
    { unfold BorrowCard.isOverdue. apply andb_false_r. }
    rewrite Ho. split; [|discriminate]. intros _.
    rewrite orb_false_r. by destruct (0 <? fine).
Qed.

Lemma card_fine_agrees_with_statistics_witness :
  let r := {| MyProfileTabs.id := "r1"; MyProfileTabs.status := "BORROWED";
              MyProfileTabs.dueDate := Some 0; MyProfileTabs.fineAmount := 5;
              MyProfileTabs.renewalCount := 1 |} in
  BorrowCard.isOverdue "BORROWED" (Some 0) (3 * 86400000) 0 = true
  /\ 0 < 5
  /\ BorrowCard.fineBadge "BORROWED" (Some 0) 5 (3 * 86400000) 0
     = Some ("5.00", "overdue fine")
  /\ MyProfileTabs.statFine (3 * 86400000) 0 r = 3.
Proof.
  cbv zeta. split; [reflexivity|]. split; [lia|].
  destruct (proj2 (card_fine_agrees_with_statistics (3 * 86400000) 0
                     {| MyProfileTabs.id := "r1"; MyProfileTabs.status := "BORROWED";
                        MyProfileTabs.dueDate := Some 0; MyProfileTabs.fineAmount := 5;
                        MyProfileTabs.renewalCount := 1 |}) eq_refl ltac:(simpl; lia))
    as [H1 H2].
  split; [exact H1|]. rewrite H2. reflexivity.
Defined.

Lemma elem_of_List_filter {A : Type} (f : A -> bool) (l : list A) (x : A) :
  x ∈ List.filter f l <-> x ∈ l /\ f x = true.
Proof. rewrite !list_elem_of_In. apply filter_In. Qed.

(** X20.  As soon as the query has returned records, the three tabs are
    computed from them alone, whatever the props are: the history tab lists
    them all, the active tab exactly those with status BORROWED, the pending
    tab exactly those with status PENDING, and no record is in both the active
    and the pending tab. *)
Theorem tabs_show_query_data (q : list MyProfileTabs.BorrowRecord)
    (ia ip ih la lp lh : option (list MyProfileTabs.BorrowRecord)) :
  q <> [] ->
  MyProfileTabs.borrowHistory q ih lh = q
  /\ (forall r, r ∈ MyProfileTabs.activeBorrows q ia ih la lh
                <-> r ∈ q /\ MyProfileTabs.status r = "BORROWED")
  /\ (forall r, r ∈ MyProfileTabs.pendingRequests q ip ih lp lh
                <-> r ∈ q /\ MyProfileTabs.status r = "PENDING")
  /\ (forall r, r ∈ MyProfileTabs.activeBorrows q ia ih la lh ->
                r ∉ MyProfileTabs.pendingRequests q ip ih lp lh).
Proof.
  intros Hq.
  assert (Hlen : (0 <? length q)%nat = true) by (destruct q; [done | reflexivity]).
  unfold MyProfileTabs.borrowHistory, MyProfileTabs.activeBorrows,
    MyProfileTabs.pendingRequests.
  rewrite Hlen.
  assert (Hs : forall s r, MyProfileTabs.has_status s r = true
                           <-> MyProfileTabs.status r = s).
  { intros s r. unfold MyProfileTabs.has_status. apply String.eqb_eq. }
  split; [reflexivity|].
  split; [intros r; by rewrite elem_of_List_filter, Hs|].
  split; [intros r; by rewrite elem_of_List_filter, Hs|].
  intros r. rewrite !elem_of_List_filter, !Hs.
  intros [_ Ha] [_ Hp]. rewrite Ha in Hp. discriminate Hp.
Qed.

Lemma tabs_show_query_data_witness :
  sampleHistory <> []
  /\ MyProfileTabs.borrowHistory sampleHistory (Some []) None = sampleHistory
  /\ map MyProfileTabs.id
       (MyProfileTabs.activeBorrows sampleHistory (Some []) (Some []) None None) = ["r1"]
  /\ map MyProfileTabs.id
       (MyProfileTabs.pendingRequests sampleHistory (Some []) (Some []) None None) = ["r3"].
Proof.
  split; [discriminate|].
  split; [apply (tabs_show_query_data sampleHistory (Some []) (Some []) (Some [])
                   None None None); discriminate|].
  split; reflexivity.
Defined.

(** X21.  Without query data and without props for the active tab, the active
    tab is filtered from the history prop [initialBorrowHistory] before
    [legacyBorrowHistory], while the history tab shows [legacyBorrowHistory]
    before [initialBorrowHistory]: every active record is in the history tab
    when at most one of the two props is given, and when both are given the
    two tabs are computed from different lists. *)
Theorem tabs_fallback_orders_differ
    (ih lh : option (list MyProfileTabs.BorrowRecord)) :
  (ih = None \/ lh = None ->
   forall r, r ∈ MyProfileTabs.activeBorrows [] None ih None lh ->
             r ∈ MyProfileTabs.borrowHistory [] ih lh
             /\ MyProfileTabs.status r = "BORROWED")
  /\ (forall i l, ih = Some i -> lh = Some l ->
      MyProfileTabs.activeBorrows [] None ih None lh
      = List.filter (MyProfileTabs.has_status "BORROWED") i
      /\ MyProfileTabs.borrowHistory [] ih lh = l).
Proof.
  unfold MyProfileTabs.activeBorrows, MyProfileTabs.borrowHistory,
    MyProfileTabs.allBorrows, MyProfileTabs.nullish.
  cbn [length Nat.ltb Nat.leb default from_option id].
  split.
  - intros Hone r. rewrite elem_of_List_filter.
    unfold MyProfileTabs.has_status. rewrite String.eqb_eq.
    destruct ih, lh; simpl; destruct Hone as [Hone | Hone];
      try discriminate Hone; tauto.
  - intros i l -> ->. simpl. done.
Qed.

Lemma tabs_fallback_orders_differ_witness :
  MyProfileTabs.activeBorrows [] None (Some sampleHistory) None (Some [])
  = List.filter (MyProfileTabs.has_status "BORROWED") sampleHistory
  /\ MyProfileTabs.borrowHistory [] (Some sampleHistory) (Some []) = [].
Proof.
  apply (proj2 (tabs_fallback_orders_differ (Some sampleHistory) (Some []))
           sampleHistory [] eq_refl eq_refl).
Defined.

(** ** The other invalidation utilities of the guide *)

Lemma guide_creation_all (entityName : string) (userId stored : option string)
    (w : World) :
  GuideUtils.invalidateAfterEntityCreation entityName userId stored w
  = invalidateAll [["dashboard-stats"]; ["all-resources"];
                   ["dashboard-stats"]; ["all-resources"];
                   [entityName]; [slice_init entityName]]
      (GuideUtils.invalidateUserQueries userId stored ("user-" +:+ entityName) w).
Proof. reflexivity. Qed.

(** X22.  The utility for a created entity invalidates the two dashboard
    prefixes twice, once itself and once through the utility for a changed
    resource, between the optional invalidation of the user's entries and
    those of the entity; the cache it leaves is the one the other two
    utilities leave without the call in between. *)
Theorem entity_creation_invalidates_dashboard_twice (entityName : string)
    (userId stored : option string) (w : World) :
  let w1 := GuideUtils.invalidateUserQueries userId stored ("user-" +:+ entityName) w in
  effects (GuideUtils.invalidateAfterEntityCreation entityName userId stored w)
  = effects w1
    ++ [Invalidate ["dashboard-stats"]; Invalidate ["all-resources"];
        Invalidate ["dashboard-stats"]; Invalidate ["all-resources"];
        Invalidate [entityName]; Invalidate [slice_init entityName]]
  /\ cache (GuideUtils.invalidateAfterEntityCreation entityName userId stored w)
     = cache (invalidateAfterResourceChange entityName w1).
Proof.
  cbv zeta. rewrite guide_creation_all. split.
  - by rewrite effects_invalidateAll.
  - apply map_eq. intros k.
    change (invalidateAfterResourceChange entityName ?x)
      with (invalidateAll [["dashboard-stats"]; ["all-resources"]; [entityName];
                           [slice_init entityName]] x).
    rewrite !cache_invalidateAll.
    f_equal. f_equal. unfold hit. cbn [existsb].
    destruct (matches ["dashboard-stats"] k), (matches ["all-resources"] k);
      reflexivity.
Qed.

(** X23.  The utility for the entries of a user changes an entry only when
    its key starts with the entity name followed by a non-empty user id,
    which is the id passed or, when none or an empty one is passed, the
    stored one: the list entry of the entity and the entries of other users
    are left as they are. *)
Theorem user_queries_touch_only_the_users_keys (userId stored : option string)
    (entityName : string) (w : World) (k : QueryKey) :
  cache (GuideUtils.invalidateUserQueries userId stored entityName w) !! k
    <> cache w !! k ->
  exists u rest,
    k = entityName :: u :: rest /\ u <> EmptyString
    /\ (userId = Some u
        \/ (userId = None \/ userId = Some EmptyString) /\ stored = Some u).
Proof.
  unfold GuideUtils.invalidateUserQueries.
  assert (Hk : forall u, truthy_string u = true ->
             cache (invalidateQueries [entityName; u] w) !! k <> cache w !! k ->
             exists rest, k = entityName :: u :: rest /\ u <> EmptyString).
  { intros u Hu Hne. simpl in Hne. rewrite lookup_markStale in Hne.
    unfold matches in Hne. destruct (bool_decide _) eqn:Hm.
    - apply bool_decide_eq_true in Hm as [rest ->].
      exists rest. split; [reflexivity|]. by intros ->.
    - destruct (cache w !! k); by destruct Hne. }
  destruct userId as [u|].
  - destruct (truthy_string u) eqn:Hu.
    + rewrite Hu. intros Hne. destruct (Hk u Hu Hne) as (rest & -> & Hu').
      exists u, rest. repeat split; auto.
    + apply truthy_string_false in Hu as ->.
      destruct stored as [s|]; [|by intros []].
      destruct (truthy_string s) eqn:Hs; [|by intros []].
      intros Hne. destruct (Hk s Hs Hne) as (rest & -> & Hs').
      exists s, rest. repeat split; auto.
  - destruct stored as [s|]; [|by intros []].
    destruct (truthy_string s) eqn:Hs; [|by intros []].
    intros Hne. destruct (Hk s Hs Hne) as (rest & -> & Hs').
    exists s, rest. repeat split; auto.
Qed.

Lemma user_queries_touch_only_the_users_keys_witness :
  cache (GuideUtils.invalidateUserQueries None (Some "u1") "user-orders" userOrdersWorld)
    !! ["user-orders"; "u1"]
  <> cache userOrdersWorld !! ["user-orders"; "u1"]
  /\ exists u rest,
       ["user-orders"; "u1"] = "user-orders" :: u :: rest /\ u <> EmptyString
       /\ ((None : option string) = Some u
           \/ ((None : option string) = None
               \/ (None : option string) = Some EmptyString) /\ Some "u1" = Some u).
Proof.
  assert (H : cache (GuideUtils.invalidateUserQueries None (Some "u1") "user-orders"
                       userOrdersWorld) !! ["user-orders"; "u1"]
              <> cache userOrdersWorld !! ["user-orders"; "u1"])
    by (vm_compute; discriminate).
  split; [exact H|].
  exact (user_queries_touch_only_the_users_keys None (Some "u1") "user-orders"
           userOrdersWorld ["user-orders"; "u1"] H).
Defined.

Example other_users_orders_stay_fresh :
  cache (GuideUtils.invalidateUserQueries None (Some "u1") "user-orders" userOrdersWorld)
    !! ["user-orders"; "u2"]
  = cache userOrdersWorld !! ["user-orders"; "u2"].
Proof. vm_compute. reflexivity. Qed.
